(** * flame_run.py: the run-control logic of the 1D flame driver

    A shallow embedding of [experiments/parsl/local_execution/flame_run.py]:
    the command-line layer under [if __name__ == "__main__"], the driver
    [run_flame] and its two closures [my_rhs] and [my_checkpoint].

    Layout:
    - [Py]: the pieces of the Python runtime the driver calls ([ascii],
      [str.replace], [str.split], [os.path.split], [int], [float],
      [format] for the snapshot pattern, name resolution);
    - the world the driver acts on (files, event trace) and its monad;
    - the external collaborators (meshmode, grudge, mirgecom) as classes;
    - the driver, stage by stage in source order, and the command line;
    - a concrete instance of the collaborators and the worlds of the
      worked runs;
    - the properties, C1 to C10. *)

From Stdlib Require Import ZArith NArith List String Ascii Bool Lia.
From Stdlib Require Import Floats DecimalString DecimalN.
From stdpp Require Import gmap strings.

Set Default Proof Using "Type".
#[local] Set Warnings "-inexact-float".
Open Scope string_scope.
Open Scope Z_scope.

(** ** Python exceptions met by the driver *)

Inductive exn : Type :=
| NameError (name : string)
| KeyError (key : string)
| IndexError
| ValueError (msg : string)
| TypeError
| OverflowError
| AssertionError
| FileNotFoundError (path : string)
| LoadError (path : string).   (* yaml.YAMLError, pickle.UnpicklingError *)

Inductive result (A : Type) : Type :=
| Ok (a : A)
| Fail (e : exn).
Arguments Ok {A} a.
Arguments Fail {A} e.

Definition result_bind {A B} (r : result A) (f : A -> result B) : result B :=
  match r with
  | Ok a => f a
  | Fail e => Fail e
  end.

(** ** The Python runtime *)

Module Py.

(** Strings are Python [str] values whose code points are below 256. *)

Definition squote : ascii := "'"%char.
Definition dquote : ascii := "034"%char.
Definition backslash : ascii := "\"%char.

Fixpoint contains (c : ascii) (s : string) : bool :=
  match s with
  | EmptyString => false
  | String d s' => Ascii.eqb d c || contains c s'
  end.

Definition hex_digit (n : nat) : ascii :=
  nth n (list_ascii_of_string "0123456789abcdef") "0"%char.

(** [repr] picks the double quote when the text has an apostrophe and no
    double quote, the apostrophe otherwise. *)
Definition repr_quote (s : string) : ascii :=
  if contains squote s && negb (contains dquote s) then dquote else squote.

(** One character of [ascii(s)]: the quote and the backslash are escaped,
    tab, newline and carriage return have their letter, every other
    character outside 0x20..0x7e is written [\xhh]. *)
Definition escape_char (quote c : ascii) : string :=
  let n := nat_of_ascii c in
  if Ascii.eqb c quote || Ascii.eqb c backslash then String backslash (String c "")
  else if Nat.eqb n 9 then "\t"
  else if Nat.eqb n 10 then "\n"
  else if Nat.eqb n 13 then "\r"
  else if Nat.ltb n 32 || Nat.leb 127 n
       then String backslash (String "x" (String (hex_digit (n / 16)) (String (hex_digit (n mod 16)) "")))
  else String c "".

Fixpoint escape_all (quote : ascii) (s : string) : string :=
  match s with
  | EmptyString => ""
  | String c s' => escape_char quote c ++ escape_all quote s'
  end.

(** The builtin [ascii], which argparse applies to every option value
    ([type=ascii]). *)
Definition py_ascii (s : string) : string :=
  let q := repr_quote s in
  String q (escape_all q s ++ String q "").

(** [s.replace(c, "")] for a one-character [c]. *)
Fixpoint remove_char (c : ascii) (s : string) : string :=
  match s with
  | EmptyString => ""
  | String d s' => if Ascii.eqb d c then remove_char c s' else String d (remove_char c s')
  end.

(** [s.split(sep)] for a one-character separator. *)
Fixpoint split (sep : ascii) (s : string) : list string :=
  match s with
  | EmptyString => [""]
  | String c s' =>
      if Ascii.eqb c sep then "" :: split sep s'
      else match split sep s' with
           | w :: ws => String c w :: ws
           | [] => [String c ""]
           end
  end.

(** [l[i]] on a list. *)
Definition index {A} (l : list A) (i : nat) : result A :=
  match nth_error l i with
  | Some a => Ok a
  | None => Fail IndexError
  end.

(** [p.rfind("/") + 1] cuts [p] in two: [rcut p = Some (h, t)] when [h]
    ends with the last slash of [p]. *)
Fixpoint rcut (p : string) : option (string * string) :=
  match p with
  | EmptyString => None
  | String c p' =>
      match rcut p' with
      | Some (h, t) => Some (String c h, t)
      | None => if Ascii.eqb c "/" then Some (String c "", p') else None
      end
  end.

Fixpoint all_slashes (s : string) : bool :=
  match s with
  | EmptyString => true
  | String c s' => Ascii.eqb c "/" && all_slashes s'
  end.

Fixpoint rstrip_slashes (s : string) : string :=
  match s with
  | EmptyString => ""
  | String c s' =>
      match rstrip_slashes s' with
      | EmptyString => if Ascii.eqb c "/" then "" else String c ""
      | r => String c r
      end
  end.

(** [os.path.split] (posixpath). *)
Definition os_path_split (p : string) : string * string :=
  match rcut p with
  | None => ("", p)
  | Some (h, t) => (if all_slashes h then h else rstrip_slashes h, t)
  end.

(** *** [int] and [float] *)

Definition is_digit (c : ascii) : bool :=
  let n := nat_of_ascii c in Nat.leb 48 n && Nat.leb n 57.

(** The characters [int] and [float] strip around a numeral, among the
    code points below 256: tab to carriage return, the blank, U+0085 and
    U+00A0 (the separators U+001C to U+001F are not stripped). *)
Definition is_space (c : ascii) : bool :=
  let n := nat_of_ascii c in
  (Nat.leb 9 n && Nat.leb n 13) || Nat.eqb n 32
  || Nat.eqb n 133 || Nat.eqb n 160.

Fixpoint lstrip (s : string) : string :=
  match s with
  | EmptyString => ""
  | String c s' => if is_space c then lstrip s' else s
  end.

Fixpoint rstrip (s : string) : string :=
  match s with
  | EmptyString => ""
  | String c s' =>
      match rstrip s' with
      | EmptyString => if is_space c then "" else String c ""
      | r => String c r
      end
  end.

Definition strip (s : string) : string := rstrip (lstrip s).

(** A digit part: digits, with single underscores allowed between two
    digits. The result is the digits alone. *)
Fixpoint digitpart (after_digit : bool) (s : string) : option string :=
  match s with
  | EmptyString => if after_digit then Some "" else None
  | String c s' =>
      if is_digit c then option_map (String c) (digitpart true s')
      else if Ascii.eqb c "_" && after_digit then digitpart false s'
      else None
  end.

Definition digits_value (s : string) : option Z :=
  match digitpart false s with
  | Some ds => option_map (fun d => Z.of_N (N.of_uint d)) (NilEmpty.uint_of_string ds)
  | None => None
  end.

(** An optional sign in front of a numeral. *)
Definition split_sign (s : string) : bool * string :=
  match s with
  | String c r =>
      if Ascii.eqb c "-" then (true, r)
      else if Ascii.eqb c "+" then (false, r)
      else (false, s)
  | EmptyString => (false, s)
  end.

(** [int(s)] for a string, base 10: surrounding whitespace, an optional
    sign, a digit part. *)
Definition int_of_str (s : string) : result Z :=
  let '(neg, ds) := split_sign (strip s) in
  match digits_value ds with
  | Some n => Ok (if neg then - n else n)
  | None => Fail (ValueError "invalid literal for int() with base 10")
  end.

(** [int(x)] for a float: truncation towards zero. *)
Definition int_of_float (f : float) : result Z :=
  match Prim2SF f with
  | S754_zero _ => Ok 0
  | S754_infinity _ => Fail OverflowError
  | S754_nan => Fail (ValueError "cannot convert float NaN to integer")
  | S754_finite s m e =>
      let a := if 0 <=? e then Z.pos m * 2 ^ e else Z.pos m / 2 ^ (- e) in
      Ok (if s then - a else a)
  end.

(** The double nearest to [z] (ties to even). *)
Definition float_of_Z (z : Z) : float :=
  SF2Prim (binary_normalize prec emax z 0 false).

(** [float(n)] for an int. *)
Definition float_of_int (z : Z) : result float :=
  let f := float_of_Z z in
  if is_infinity f then Fail OverflowError else Ok f.

(** The double nearest to [m * 10 ^ e10], for [0 <= m]. When the exponent
    is negative the quotient is taken with 64 extra bits and a sticky bit,
    so that the one rounding of [binary_normalize] is the rounding of the
    exact value. *)
Definition float_of_decimal (neg : bool) (m e10 : Z) : float :=
  let sgn z := if neg then - z else z in
  if m =? 0 then (if neg then (- 0)%float else 0%float)
  else if 0 <=? e10 then float_of_Z (sgn (m * 10 ^ e10))
  else
    let q := 10 ^ (- e10) in
    let k := Z.log2 q + 64 in
    let n := (m * 2 ^ k) / q in
    let sticky := if (m * 2 ^ k) mod q =? 0 then 0 else 1 in
    SF2Prim (binary_normalize prec emax (sgn (2 * n + sticky)) (- k - 1) false).

Definition lower (c : ascii) : ascii :=
  let n := nat_of_ascii c in
  if Nat.leb 65 n && Nat.leb n 90 then ascii_of_nat (n + 32) else c.

Fixpoint lowercase (s : string) : string :=
  match s with
  | EmptyString => ""
  | String c s' => String (lower c) (lowercase s')
  end.

(** [cut_at p s]: the text before the first character satisfying [p], and
    the text after it when there is one. *)
Fixpoint cut_at (p : ascii -> bool) (s : string) : string * option string :=
  match s with
  | EmptyString => ("", None)
  | String c s' =>
      if p c then ("", Some s')
      else let '(a, b) := cut_at p s' in (String c a, b)
  end.

(** An optional digit part: the empty text counts as no digits. *)
Definition opt_digitpart (s : string) : option string :=
  match s with
  | EmptyString => Some ""
  | _ => digitpart false s
  end.

(** [float(s)] for a string: surrounding whitespace, an optional sign,
    then [inf], [infinity], [nan] in any case, or a decimal numeral
    [digits][.digits][e[sign]digits] with a digit in the mantissa. *)
Definition float_of_str (s : string) : result float :=
  let bad := Fail (ValueError "could not convert string to float") in
  let '(neg, body) := split_sign (strip s) in
  let name := lowercase body in
  if String.eqb name "inf" || String.eqb name "infinity"
  then Ok (if neg then neg_infinity else infinity)
  else if String.eqb name "nan" then Ok nan
  else
    let '(mant, expo) := cut_at (fun c => Ascii.eqb (lower c) "e") body in
    let '(ipart, fpart) := cut_at (fun c => Ascii.eqb c ".") mant in
    let fpart := match fpart with Some f => f | None => "" end in
    match opt_digitpart ipart, opt_digitpart fpart with
    | Some i, Some f =>
        if String.eqb (i ++ f) "" then bad
        else
          match NilEmpty.uint_of_string (i ++ f) with
          | None => bad
          | Some d =>
              let m := Z.of_N (N.of_uint d) in
              let shift := Z.of_nat (String.length f) in
              match expo with
              | None => Ok (float_of_decimal neg m (- shift))
              | Some e =>
                  let '(eneg, eds) := split_sign e in
                  match digits_value eds with
                  | Some ev => Ok (float_of_decimal neg m ((if eneg then - ev else ev) - shift))
                  | None => bad
                  end
              end
          end
    | _, _ => bad
    end.

(** *** The snapshot file name pattern *)

Definition decimal (n : N) : string := NilZero.string_of_uint (N.to_uint n).

Fixpoint zeros (k : nat) : string :=
  match k with
  | O => ""
  | S k' => String "0" (zeros k')
  end.

(** [format(n, "0wd")]: sign-aware zero padding to width [w]. *)
Definition format_0d (w : nat) (n : Z) : string :=
  let ds := decimal (Z.abs_N n) in
  if n <? 0 then String "-" (zeros (w - 1 - String.length ds) ++ ds)
  else zeros (w - String.length ds) ++ ds.

(** *** Character classes *)

Fixpoint all_chars (p : ascii -> bool) (s : string) : bool :=
  match s with
  | EmptyString => true
  | String c s' => p c && all_chars p s'
  end.

(** The characters [ascii] copies as they are when it quotes with an
    apostrophe: printable ASCII other than the apostrophe and the
    backslash. *)
Definition plain_char (c : ascii) : bool :=
  let n := nat_of_ascii c in
  Nat.leb 32 n && Nat.leb n 126
  && negb (Ascii.eqb c squote) && negb (Ascii.eqb c backslash).

(** The characters of a zero-padded number. *)
Definition field_char (c : ascii) : bool := is_digit c || Ascii.eqb c "-".

(** [str(n)] for an int. *)
Definition str_of_int (n : Z) : string :=
  if n <? 0 then String "-" (decimal (Z.abs_N n)) else decimal (Z.abs_N n).

(** *** Name resolution

    A name is looked up in the local scope, the enclosing function scopes,
    the module scope and the builtins, in this order; a name bound in none
    of them raises [NameError]. *)
Definition name_bound (scopes : list (list string)) (name : string) : bool :=
  existsb (existsb (String.eqb name)) scopes.

(** The names of the [builtins] module. *)
Definition builtins : list string :=
  [ "ArithmeticError"; "AssertionError"; "AttributeError"; "BaseException";
    "BlockingIOError"; "BrokenPipeError"; "BufferError"; "BytesWarning";
    "ChildProcessError"; "ConnectionAbortedError"; "ConnectionError";
    "ConnectionRefusedError"; "ConnectionResetError"; "DeprecationWarning";
    "EOFError"; "Ellipsis"; "EnvironmentError"; "Exception"; "False";
    "FileExistsError"; "FileNotFoundError"; "FloatingPointError";
    "FutureWarning"; "GeneratorExit"; "IOError"; "ImportError";
    "ImportWarning"; "IndentationError"; "IndexError"; "InterruptedError";
    "IsADirectoryError"; "KeyError"; "KeyboardInterrupt"; "LookupError";
    "MemoryError"; "ModuleNotFoundError"; "NameError"; "None";
    "NotADirectoryError"; "NotImplemented"; "NotImplementedError"; "OSError";
    "OverflowError"; "PendingDeprecationWarning"; "PermissionError";
    "ProcessLookupError"; "RecursionError"; "ReferenceError";
    "ResourceWarning"; "RuntimeError"; "RuntimeWarning"; "StopAsyncIteration";
    "StopIteration"; "SyntaxError"; "SyntaxWarning"; "SystemError";
    "SystemExit"; "TabError"; "TimeoutError"; "True"; "TypeError";
    "UnboundLocalError"; "UnicodeDecodeError"; "UnicodeEncodeError";
    "UnicodeError"; "UnicodeTranslateError"; "UnicodeWarning"; "UserWarning";
    "ValueError"; "Warning"; "ZeroDivisionError"; "__build_class__";
    "__debug__"; "__doc__"; "__import__"; "__loader__"; "__name__";
    "__package__"; "__spec__"; "abs"; "all"; "any"; "ascii"; "bin"; "bool";
    "breakpoint"; "bytearray"; "bytes"; "callable"; "chr"; "classmethod";
    "compile"; "complex"; "copyright"; "credits"; "delattr"; "dict"; "dir";
    "divmod"; "enumerate"; "eval"; "exec"; "exit"; "filter"; "float";
    "format"; "frozenset"; "getattr"; "globals"; "hasattr"; "hash"; "help";
    "hex"; "id"; "input"; "int"; "isinstance"; "issubclass"; "iter"; "len";
    "license"; "list"; "locals"; "map"; "max"; "memoryview"; "min"; "next";
    "object"; "oct"; "open"; "ord"; "pow"; "print"; "property"; "quit";
    "range"; "repr"; "reversed"; "round"; "set"; "setattr"; "slice";
    "sorted"; "staticmethod"; "str"; "sum"; "super"; "tuple"; "type";
    "vars"; "zip" ].

End Py.

(** ** Values read from a YAML document *)

Inductive yval : Type :=
| YInt (n : Z)
| YFloat (f : float)
| YStr (s : string)
| YBool (b : bool)
| YNull
| YOther.           (* a sequence or a mapping *)

(** [int(v)] *)
Definition py_int (v : yval) : result Z :=
  match v with
  | YInt n => Ok n
  | YFloat f => Py.int_of_float f
  | YStr s => Py.int_of_str s
  | YBool b => Ok (if b then 1 else 0)
  | YNull | YOther => Fail TypeError
  end.

(** [float(v)] *)
Definition py_float (v : yval) : result float :=
  match v with
  | YInt n => Py.float_of_int n
  | YFloat f => Ok f
  | YStr s => Py.float_of_str s
  | YBool b => Ok (if b then 1%float else 0%float)
  | YNull | YOther => Fail TypeError
  end.

(** [d[k]] on a mapping. *)
Definition getitem (d : gmap string yval) (k : string) : result yval :=
  match d !! k with
  | Some v => Ok v
  | None => Fail (KeyError k)
  end.

(** ** The snapshot file name pattern

    [snapshot_pattern] is a format string over the fields [casename],
    [step] and [rank]; the two patterns of the source are
    [default_pattern] (the default of [run_flame]) and [cli_pattern] (the
    one the command line passes). *)

Inductive piece : Type :=
| Lit (s : string)
| FieldCasename            (* {casename} *)
| FieldStep06              (* {step:06d} *)
| FieldRank04.             (* {rank:04d} *)

Definition format_piece (casename : string) (step rank : Z) (p : piece) : string :=
  match p with
  | Lit s => s
  | FieldCasename => casename
  | FieldStep06 => Py.format_0d 6 step
  | FieldRank04 => Py.format_0d 4 rank
  end.

(** [pattern.format(casename=casename, step=step, rank=rank)] *)
Definition format (pattern : list piece) (casename : string) (step rank : Z) : string :=
  String.concat "" (map (format_piece casename step rank) pattern).

Definition default_pattern : list piece :=
  [Lit "flame1d-"; FieldStep06; Lit "-"; FieldRank04; Lit ".pkl"].

Definition cli_pattern : list piece :=
  [FieldCasename; Lit "-"; FieldStep06; Lit "-"; FieldRank04; Lit ".pkl"].

(** ** External array and mesh types

    The mesh, the solution arrays and the operators on them belong to
    meshmode, grudge and mirgecom. *)

Class Arrays : Type := {
  Mesh : Type;
  FlatState : Type;                         (* the state as numpy arrays *)
  State : Type;                             (* the state as DOF arrays *)
  unflatten : FlatState -> State;           (* unflatten(actx, discr, from_numpy(..)) *)
  flatten : State -> FlatState;             (* to_numpy(flatten(state)) *)
  norm_inf : State -> float;                (* discr.norm(state, np.inf) *)
  rhs_operator : float -> State -> State;   (* ns_operator(..) + species sources *)
}.

(** How a computation ends: with a value, with an exception, or in
    [exit()]. *)
Inductive outcome (A : Type) : Type :=
| Ret (a : A)
| Raise (e : exn)
| Exit.
Arguments Ret {A} a.
Arguments Raise {A} e.
Arguments Exit {A}.

Section World.
Context `{Arrays}.

(** The mapping [my_checkpoint] pickles, key by key. *)
Record RestartRecord : Type := {
  r_local_mesh : Mesh;
  r_state : FlatState;
  r_t : float;
  r_step : Z;
  r_global_nelements : Z;
  r_num_parts : Z;
}.

(** A pickled mapping, key by key: [None] for a key it lacks. *)
Record pickled_mapping : Type := {
  p_local_mesh : option Mesh;
  p_state : option FlatState;
  p_t : option float;
  p_step : option Z;
  p_global_nelements : option Z;
  p_num_parts : option Z;
}.

Definition mapping_of_record (r : RestartRecord) : pickled_mapping :=
  {| p_local_mesh := Some (r_local_mesh r);
     p_state := Some (r_state r);
     p_t := Some (r_t r);
     p_step := Some (r_step r);
     p_global_nelements := Some (r_global_nelements r);
     p_num_parts := Some (r_num_parts r) |}.

(** The files the driver reads and writes itself: configuration documents
    and restart snapshots. What [sim_checkpoint] writes (visualization
    files) is not kept here; its call is an [event]. *)
Inductive file : Type :=
| FYaml (doc : gmap string yval)   (* a YAML document that is a mapping *)
| FYamlOther                       (* a YAML document that is not a mapping *)
| FSnapshot (r : RestartRecord)    (* a pickled restart record, all six keys *)
| FPickle (d : pickled_mapping)    (* a pickled mapping with any of the keys *)
| FOther.                          (* a file neither loader can read *)

(** The keyword arguments of a [sim_checkpoint] call that vary. *)
Record sim_checkpoint_call : Type := {
  sc_q : State;
  sc_vizname : string;
  sc_step : Z;
  sc_t : float;
  sc_dt : float;
  sc_nviz : Z;
}.

(** What the process does to the outside, in order. *)
Inductive event : Type :=
| Info (msg : string)                               (* logging.info *)
| Print (msg : string)                              (* print *)
| PrintControl (nviz nrestart : Z) (current_dt t_final : float)
| InitLogmgr (use_logmgr : bool)
| CreateContext                                     (* cl context, queue, actx *)
| OpenRead (path : string)                          (* open(path) *)
| SetupThermochemistry                              (* Cantera .. boundaries *)
| MakeDiscretization (mesh : Mesh)
| SetupLogmgr
| MakeVisualizer
| AdvanceState (t_final t : float) (istep : Z)      (* the call of advance_state *)
| WriteSnapshot (path : string) (r : RestartRecord) (* pickle.dump *)
| SimCheckpoint (c : sim_checkpoint_call)
| CloseLogmgr.

Record world : Type := {
  fs : gmap string file;
  trace : list event;
}.

Definition M (A : Type) : Type := world -> outcome A * world.

Definition ret {A} (a : A) : M A := fun w => (Ret a, w).
Definition raise {A} (e : exn) : M A := fun w => (Raise e, w).
Definition exit {A} : M A := fun w => (Exit, w).

Definition bind {A B} (m : M A) (f : A -> M B) : M B :=
  fun w =>
    match m w with
    | (Ret a, w') => f a w'
    | (Raise e, w') => (Raise e, w')
    | (Exit, w') => (Exit, w')
    end.

Definition lift {A} (r : result A) : M A :=
  match r with
  | Ok a => ret a
  | Fail e => raise e
  end.

Definition add_events (w : world) (es : list event) : world :=
  {| fs := fs w; trace := trace w ++ es |}.

Definition emit (e : event) : M unit := fun w => (Ret tt, add_events w [e]).

Definition when (b : bool) (m : M unit) : M unit := if b then m else ret tt.

(** [open(path)] for reading. *)
Definition open (path : string) : M file :=
  fun w =>
    match fs w !! path with
    | Some f => (Ret f, add_events w [OpenRead path])
    | None => (Raise (FileNotFoundError path), w)
    end.

(** [pickle.dump(r, open(path, "wb"))] *)
Definition dump (path : string) (r : RestartRecord) : M unit :=
  fun w => (Ret tt, {| fs := <[path := FSnapshot r]> (fs w);
                       trace := trace w ++ [WriteSnapshot path r] |}).

(** [Py.name_bound] as a load. *)
Definition load_name (scopes : list (list string)) (name : string) : M unit :=
  if Py.name_bound scopes name then ret tt else raise (NameError name).

End World.

Notation "x <- m ;; k" := (bind m (fun x => k))
  (at level 100, m at level 99, k at level 200, right associativity).
Notation "m ;;; k" := (bind m (fun _ => k))
  (at level 100, k at level 200, right associativity).

(** ** mirgecom's run-control helpers *)

Class Mirgecom `{Arrays} : Type := {
  (** [check_step(step, interval)] *)
  check_step : Z -> Z -> bool;
  (** [advance_state(rhs, timestepper, checkpoint, get_timestep, state,
      t_final, t, istep)], with the fixed [dt] that [get_timestep] was
      built from; it returns [(istep, t, state)]. *)
  advance_state :
    (float -> State -> M State) ->
    (Z -> float -> float -> State -> M unit) ->
    float -> State -> float -> float -> Z ->
    M (Z * float * State);
}.

(** [MPI.COMM_WORLD] as seen by this process. *)
Record Comm : Type := {
  Get_rank : Z;
  Get_size : Z;
}.

Record run_parameters : Type := {
  nviz : Z;
  nrestart : Z;
  current_dt : float;
  t_final : float;
}.

(** ** The scopes of the source text *)

(** The names bound in [my_rhs]. *)
Definition my_rhs_locals : list string := ["t"; "state"; "inf_exists"; "cv"].

(** The names bound in [run_flame]: parameters, imports and assignment
    targets. *)
Definition run_flame_locals : list string :=
  [ "ctx_factory"; "casename"; "user_input_file"; "snapshot_pattern";
    "restart_step"; "restart_name"; "use_logmgr"; "MPI"; "comm"; "rank";
    "nparts"; "logmgr"; "cl_ctx"; "queue"; "actx"; "nviz"; "nrestart";
    "current_dt"; "t_final"; "input_data"; "f"; "dim"; "order"; "exittol";
    "current_cfl"; "current_t"; "constant_cfl"; "nstatus"; "checkpoint_t";
    "current_step"; "vel_burned"; "vel_unburned"; "get_mechanism_cti";
    "mech_cti"; "cantera_soln"; "nspecies"; "temp_unburned"; "temp_ignition";
    "equiv_ratio"; "ox_di_ratio"; "stoich_ratio"; "i_fu"; "i_ox"; "i_di"; "x";
    "one_atm"; "pres_unburned"; "y_unburned"; "can_t"; "rho_unburned";
    "can_p"; "temp_burned"; "rho_burned"; "y_burned"; "pres_burned";
    "pyrometheus_mechanism"; "mu"; "kappa"; "species_diffusivity";
    "transport_model"; "eos"; "species_names"; "flame_start_loc";
    "flame_speed"; "inflow_init"; "outflow_init"; "inflow"; "outflow"; "wall";
    "sym"; "boundaries"; "restart_data"; "local_mesh"; "local_nelements";
    "global_nelements"; "discr"; "nodes"; "current_state"; "vis_timer";
    "visualizer"; "timestepper"; "get_timestep"; "my_rhs"; "my_checkpoint" ].

(** The names bound at module level, those of the [__main__] block
    included. *)
Definition module_globals : list string :=
  [ "__copyright__"; "__license__"; "yaml"; "logging"; "np"; "cl"; "la";
    "cla"; "partial"; "math"; "obj_array_vectorize"; "pickle";
    "PyOpenCLArrayContext"; "thaw"; "flatten"; "unflatten"; "BTAG_ALL";
    "BTAG_NONE"; "EagerDGDiscretization"; "make_visualizer";
    "PyOpenCLProfilingArrayContext"; "euler_operator"; "ns_operator";
    "split_conserved"; "inviscid_sim_timestep"; "sim_checkpoint";
    "check_step"; "generate_and_distribute_mesh"; "make_init_message";
    "mpi_entry_point"; "cl_tools"; "rk4_step"; "lsrk54_step"; "lsrk144_step";
    "euler_step"; "advance_state"; "PrescribedViscousBoundary";
    "PlanarDiscontinuity"; "MixtureInitializer"; "SimpleTransport";
    "PyrometheusMixture"; "cantera"; "pyro"; "IntervalTimer";
    "extract_vars_for_logging"; "units_for_logging"; "initialize_logmgr";
    "logmgr_add_many_discretization_quantities"; "logmgr_add_cl_device_info";
    "logmgr_set_time"; "logmgr_add_device_memory_usage"; "logger";
    "run_flame"; "sys"; "os"; "argparse"; "parser"; "args"; "casename";
    "snapshot_pattern"; "restart_step"; "restart_name"; "file_path";
    "file_name"; "input_file" ].

Definition my_rhs_scopes : list (list string) :=
  [my_rhs_locals; run_flame_locals; module_globals; Py.builtins].

(** ** The driver *)

Section Driver.
Context `{Mirgecom}.
Variable comm : Comm.

Let rank : Z := Get_rank comm.
Let nparts : Z := Get_size comm.

(** Lines 121-128: the defaults. *)
Definition default_parameters : run_parameters :=
  {| nviz := 5; nrestart := 5; current_dt := 5.0e-8; t_final := 2.5e-7 |}.

(** What [yaml.load] returned: a mapping or some other value. *)
Inductive loaded_yaml : Type :=
| YMapping (d : gmap string yval)
| YNotMapping.

(** [yaml.load(f, Loader=yaml.FullLoader)] *)
Definition yaml_load (path : string) (f : file) : M loaded_yaml :=
  match f with
  | FYaml doc => ret (YMapping doc)
  | FYamlOther => ret YNotMapping
  | _ => raise (LoadError path)
  end.

(** [input_data[k]] *)
Definition subscript (input_data : loaded_yaml) (k : string) : result yval :=
  match input_data with
  | YMapping d => getitem d k
  | YNotMapping => Fail TypeError
  end.

(** [pickle.load(f)] *)
Definition pickle_load (path : string) (f : file) : M pickled_mapping :=
  match f with
  | FSnapshot r => ret (mapping_of_record r)
  | FPickle d => ret d
  | _ => raise (LoadError path)
  end.

(** [restart_data[k]] *)
Definition restart_key {A} (k : string) (v : option A) : result A :=
  match v with
  | Some a => Ok a
  | None => Fail (KeyError k)
  end.

(** Lines 123-141. [yaml.load_all(open(user_input_file), 'r')] opens the
    file and builds a generator that is never consumed; [input_data] is
    then rebound to the document loaded from ['run2_params.yaml']. *)
Definition read_run_parameters (user_input_file : string) : M run_parameters :=
  if String.eqb user_input_file "" then ret default_parameters
  else
    _ <- open user_input_file ;;
    f <- open "run2_params.yaml" ;;
    input_data <- yaml_load "run2_params.yaml" f ;;
    nviz <- lift (result_bind (subscript input_data "nviz") py_int) ;;
    nrestart <- lift (result_bind (subscript input_data "nrestart") py_int) ;;
    current_dt <- lift (result_bind (subscript input_data "current_dt") py_float) ;;
    t_final <- lift (result_bind (subscript input_data "t_final") py_float) ;;
    ret {| nviz := nviz; nrestart := nrestart;
           current_dt := current_dt; t_final := t_final |}.

(** What the restart stage leaves in [run_flame]'s frame. *)
Record restart_state : Type := {
  local_mesh : Mesh;
  global_nelements : Z;
  current_t : float;
  current_step : Z;
  current_state : State;
}.

(** Lines 270-291. *)
Definition process_restart (snapshot_pattern : list piece)
    (restart_name : string) (restart_step : Z) : M restart_state :=
  let path := format snapshot_pattern restart_name restart_step rank in
  f <- open path ;;
  restart_data <- pickle_load path f ;;
  local_mesh <- lift (restart_key "local_mesh" (p_local_mesh restart_data)) ;;
  global_nelements <-
    lift (restart_key "global_nelements" (p_global_nelements restart_data)) ;;
  num_parts <- lift (restart_key "num_parts" (p_num_parts restart_data)) ;;
  (if Get_size comm =? num_parts then ret tt else raise AssertionError) ;;;
  when (rank =? 0) (emit (Info "Making discretization")) ;;;
  emit (MakeDiscretization local_mesh) ;;;
  current_t <- lift (restart_key "t" (p_t restart_data)) ;;
  state <- lift (restart_key "state" (p_state restart_data)) ;;
  ret {| local_mesh := local_mesh;
         global_nelements := global_nelements;
         current_t := current_t;
         current_step := restart_step;
         current_state := unflatten state |}.

(** The variables of [run_flame] that its two closures read. *)
Record frame : Type := {
  casename : string;
  snapshot_pattern : list piece;
  restart_step : Z;
  parameters : run_parameters;
  restart : restart_state;
}.

(** Lines 321-338. The keyword arguments of the [sim_checkpoint] call are
    evaluated in order before the call; [s0_sc] and [kappa_sc] are the
    last two. *)
Definition my_rhs (fr : frame) (t : float) (state : State) : M State :=
  let inf_exists := negb (is_finite (norm_inf state)) in
  if inf_exists then
    when (rank =? 0)
      (emit (Info "Non-finite values detected in simulation, exiting...")) ;;;
    load_name my_rhs_scopes "s0_sc" ;;;
    load_name my_rhs_scopes "kappa_sc" ;;;
    emit (SimCheckpoint {| sc_q := state; sc_vizname := casename fr;
                           sc_step := 999999999; sc_t := t;
                           sc_dt := current_dt (parameters fr);
                           sc_nviz := 1 |}) ;;;
    exit
  else ret (rhs_operator t state).

(** Lines 340-364. *)
Definition my_checkpoint (fr : frame) (step : Z) (t dt : float) (state : State) : M unit :=
  let write_restart :=
    if negb (step =? restart_step fr)
    then check_step step (nrestart (parameters fr))
    else false in
  when write_restart
    (dump (format (snapshot_pattern fr) (casename fr) step rank)
       {| r_local_mesh := local_mesh (restart fr);
          r_state := flatten state;
          r_t := t;
          r_step := step;
          r_global_nelements := global_nelements (restart fr);
          r_num_parts := nparts |}) ;;;
  emit (SimCheckpoint {| sc_q := state; sc_vizname := casename fr;
                         sc_step := step; sc_t := t; sc_dt := dt;
                         sc_nviz := nviz (parameters fr) |}).

(** Line 383: [current_t - t_final < 0]. *)
Definition ended_early (current_t t_final : float) : bool :=
  (current_t - t_final <? 0)%float.

(** Lines 366-389: the step loop and what follows it. *)
Definition step_and_finish (fr : frame) (logmgr : bool) : M unit :=
  let p := parameters fr in
  let rs := restart fr in
  when (rank =? 0) (emit (Info "Stepping.")) ;;;
  emit (AdvanceState (t_final p) (current_t rs) (current_step rs)) ;;;
  r <- advance_state (my_rhs fr) (my_checkpoint fr) (current_dt p)
         (current_state rs) (t_final p) (current_t rs) (current_step rs) ;;
  let '(current_step, current_t, current_state) := r in
  when (rank =? 0) (emit (Info "Checkpointing final state ...")) ;;;
  my_checkpoint fr current_step current_t (current_t - 0)%float current_state ;;;
  if ended_early current_t (t_final p)
  then raise (ValueError "Simulation exited abnormally")
  else when logmgr (emit CloseLogmgr) ;;; exit.

(** Lines 93-389. *)
Definition run_flame (casename user_input_file : string)
    (snapshot_pattern : list piece) (restart_step : option Z)
    (restart_name : option string) (use_logmgr : bool) : M unit :=
  match restart_step with
  | None =>
      when (rank =? 0)
        (emit (Info "Driver only supports restart, not initialization")) ;;;
      exit
  | Some restart_step =>
      let restart_name :=
        match restart_name with
        | None => casename
        | Some name => name
        end in
      emit (InitLogmgr use_logmgr) ;;;
      let logmgr := use_logmgr in
      emit CreateContext ;;;
      p <- read_run_parameters user_input_file ;;
      when (rank =? 0)
        (emit (PrintControl (nviz p) (nrestart p) (current_dt p) (t_final p))) ;;;
      emit SetupThermochemistry ;;;
      rs <- process_restart snapshot_pattern restart_name restart_step ;;
      when logmgr (emit SetupLogmgr) ;;;
      emit MakeVisualizer ;;;
      step_and_finish {| casename := casename;
                         snapshot_pattern := snapshot_pattern;
                         restart_step := restart_step;
                         parameters := p;
                         restart := rs |} logmgr
  end.

(** *** The command line (the [__main__] block) *)

(** What [parser.parse_args()] (line 414) found on a command line it
    accepted: the option values as typed, [None] for an option that is
    absent or given without a value. A command line argparse refuses or
    answers itself ([-h], an unknown option) ends in [SystemExit] inside
    [parse_args()] and has no [cli]. *)
Record cli : Type := {
  argv0 : string;
  opt_restart_file : option string;      (* -r *)
  opt_input_file : option string;        (* -i *)
  opt_casename : option string;          (* -c *)
}.

(** The module-level variables after lines 416-441. [input_file] is
    assigned in one branch only: [None] stands for an unbound name. *)
Record cli_state : Type := {
  v_casename : string;
  v_restart_step : option Z;
  v_restart_name : option string;
  v_input_file : option string;
}.

(** [if(x):] on an optional string. *)
Definition truthy (x : option string) : option string :=
  match x with
  | Some EmptyString => None
  | _ => x
  end.

(** Lines 417-422. *)
Definition parse_casename (args_casename : option string) : M string :=
  match truthy args_casename with
  | Some a =>
      emit (Print ("Custom casename " ++ a)) ;;;
      ret (Py.remove_char "'" a)
  | None =>
      emit (Print ("Default casename " ++ "flame1d")) ;;;
      ret "flame1d"
  end.

(** Lines 425-433: [(restart_step, restart_name)]. *)
Definition parse_restart_file (args_restart_file : option string)
    : M (option Z * option string) :=
  match truthy args_restart_file with
  | Some a =>
      emit (Print ("Restarting from file " ++ a)) ;;;
      let '(file_path, file_name) := Py.os_path_split a in
      field1 <- lift (Py.index (Py.split "-" file_name) 1) ;;
      restart_step <- lift (Py.int_of_str field1) ;;
      field0 <- lift (Py.index (Py.split "-" file_name) 0) ;;
      let restart_name := Py.remove_char "'" field0 in
      emit (Print ("step " ++ Py.str_of_int restart_step)) ;;;
      emit (Print ("name " ++ restart_name)) ;;;
      ret (Some restart_step, Some restart_name)
  | None => ret (None, None)
  end.

(** Lines 437-441: the binding of [input_file], if any. *)
Definition parse_input_file (args_input_file : option string) : M (option string) :=
  match truthy args_input_file with
  | Some a =>
      emit (Print ("Reading user input from " ++ a)) ;;;
      ret (Some (Py.remove_char "'" a))
  | None =>
      emit (Print "No user input file, using default values") ;;;
      ret None
  end.

(** Lines 416-441, once [parse_args()] has returned; argparse has handed
    every value through [ascii]. *)
Definition command_line (c : cli) : M cli_state :=
  let args_restart_file := option_map Py.py_ascii (opt_restart_file c) in
  let args_input_file := option_map Py.py_ascii (opt_input_file c) in
  let args_casename := option_map Py.py_ascii (opt_casename c) in
  casename <- parse_casename args_casename ;;
  restart <- parse_restart_file args_restart_file ;;
  input_file <- parse_input_file args_input_file ;;
  ret {| v_casename := casename;
         v_restart_step := fst restart;
         v_restart_name := snd restart;
         v_input_file := input_file |}.

(** Reading a module-level variable. *)
Definition load_global {A} (name : string) (binding : option A) : M A :=
  match binding with
  | Some a => ret a
  | None => raise (NameError name)
  end.

(** Lines 414-446, for a command line [parse_args()] accepts. *)
Definition main (c : cli) : M unit :=
  st <- command_line c ;;
  emit (Print ("Running " ++ argv0 c ++ String "010"%char "")) ;;;
  input_file <- load_global "input_file" (v_input_file st) ;;
  run_flame (v_casename st) input_file cli_pattern
    (v_restart_step st) (v_restart_name st) true.

End Driver.

(** ** Reading a run *)

Section Observations.
Context `{Arrays}.

(** The events a computation added to the trace of [w]. *)
Definition new_events (w w' : world) : list event :=
  skipn (length (trace w)) (trace w').

Definition is_snapshot_write (e : event) : bool :=
  match e with
  | WriteSnapshot _ _ => true
  | _ => false
  end.

Definition is_print (e : event) : bool :=
  match e with
  | Print _ => true
  | _ => false
  end.

End Observations.

Section CheckpointObservation.
Context `{Mirgecom}.
Variable comm : Comm.

(** Whether a call of [my_checkpoint] wrote a restart snapshot. *)
Definition writes_restart (fr : frame) (step : Z) (t dt : float) (state : State)
    (w : world) : Prop :=
  exists path r,
    In (WriteSnapshot path r)
       (new_events w (snd (my_checkpoint comm fr step t dt state w))).

(** Whether a call of [my_checkpoint] left the snapshot of its step behind:
    the file named after the casename, the step and the rank holds the
    record of the call, and the write is among the events of the call. *)
Definition snapshot_written (fr : frame) (step : Z) (t dt : float) (state : State)
    (w : world) : Prop :=
  let w' := snd (my_checkpoint comm fr step t dt state w) in
  let path := format (snapshot_pattern fr) (casename fr) step (Get_rank comm) in
  let r := {| r_local_mesh := local_mesh (restart fr);
              r_state := flatten state; r_t := t; r_step := step;
              r_global_nelements := global_nelements (restart fr);
              r_num_parts := Get_size comm |} in
  fs w' !! path = Some (FSnapshot r) /\
  In (WriteSnapshot path r) (new_events w w').

End CheckpointObservation.

(** ** A concrete instance for worked runs

    States are lists of doubles, a mesh is known by its number of
    elements, the stepper is explicit Euler with a cap on the number of
    steps, and [check_step] follows mirgecom's documentation: interval 0
    always, a negative interval never, otherwise every [interval] steps. *)

Definition list_norm_inf (s : list float) : float :=
  fold_right (fun x m => if is_nan x then nan
                         else if (m <? abs x)%float then abs x else m)
             0%float s.

Fixpoint axpy (a : float) (xs ys : list float) : list float :=
  match xs, ys with
  | x :: xs', y :: ys' => (a * x + y)%float :: axpy a xs' ys'
  | _, _ => []
  end.

#[export] Instance list_arrays : Arrays := {|
  Mesh := Z;
  FlatState := list float;
  State := list float;
  unflatten := fun s => s;
  flatten := fun s => s;
  norm_inf := list_norm_inf;
  rhs_operator := fun _ s => map (fun x => (- x)%float) s;
|}.

Fixpoint capped_advance_state (cap : nat)
    (rhs : float -> list float -> M (list float))
    (checkpoint : Z -> float -> float -> list float -> M unit)
    (dt : float) (state : list float) (t_final t : float) (istep : Z)
    : M (Z * float * list float) :=
  match cap with
  | O => ret (istep, t, state)
  | S cap' =>
      if (t <? t_final)%float then
        checkpoint istep t dt state ;;;
        k <- rhs t state ;;
        capped_advance_state cap' rhs checkpoint dt (axpy dt k state)
          t_final (t + dt)%float (istep + 1)
      else ret (istep, t, state)
  end.

Definition capped_mirgecom (cap : nat) : Mirgecom := {|
  check_step := fun step interval =>
    if interval =? 0 then true
    else if interval <? 0 then false
    else step mod interval =? 0;
  advance_state := capped_advance_state cap;
|}.

Definition example_comm : Comm := {| Get_rank := 0; Get_size := 1 |}.

Definition example_snapshot (st : list float) (t0 : float) : RestartRecord :=
  {| r_local_mesh := 8 : @Mesh list_arrays; r_state := st; r_t := t0;
     r_step := 5; r_global_nelements := 8; r_num_parts := 1 |}.

Definition example_world (st : list float) (t0 : float) : world :=
  {| fs := {[ "flame1d-000005-0000.pkl" := FSnapshot (example_snapshot st t0) ]};
     trace := [] |}.


(** ** The worlds and command lines of the worked runs *)

Definition example_parameters : run_parameters :=
  {| nviz := 5; nrestart := 5; current_dt := 5.0e-8; t_final := 2.5e-7 |}.

Definition example_frame : frame :=
  {| casename := "flame1d";
     snapshot_pattern := cli_pattern;
     restart_step := 5;
     parameters := example_parameters;
     restart := {| local_mesh := 8; global_nelements := 8; current_t := 0;
                   current_step := 5; current_state := [1; 2]%float |} |}.

Definition empty_world : world := {| fs := ∅; trace := [] |}.

(** A run restarted at step 5 and time 0 whose stepper stops after two
    steps. *)
Definition capped_run : outcome unit * world :=
  run_flame (H0 := capped_mirgecom 2) example_comm "flame1d" "" cli_pattern
    (Some 5) None false (example_world [1; 2]%float 0).

(** A run restarted at step 5 from a snapshot already at the final time:
    the stepper takes no step. *)
Definition zero_step_run : outcome unit * world :=
  run_flame (H0 := capped_mirgecom 10) example_comm "flame1d" "" cli_pattern
    (Some 5) None false (example_world [1; 2]%float 2.5e-7).

(** A run whose restart state holds an infinity. *)
Definition diverged_run : outcome unit * world :=
  run_flame (H0 := capped_mirgecom 10) example_comm "flame1d" "" cli_pattern
    (Some 5) None false (example_world [1; infinity]%float 0).

(** A world with the configuration file the user names and the file the
    driver reads. *)
Definition config_world : world :=
  {| fs := <["my_params.yaml" :=
              FYaml (<["nviz" := YInt 1]> (<["nrestart" := YInt 2]>
                    (<["current_dt" := YFloat 1.0e-9]>
                    (<["t_final" := YFloat 1.0e-8]> ∅))))]>
           (<["run2_params.yaml" :=
              FYaml (<["nviz" := YInt 7]> (<["nrestart" := YInt 9]>
                    (<["current_dt" := YStr "5e-8"]>
                    (<["t_final" := YFloat 2.5e-7]> ∅))))]> ∅);
     trace := [] |}.

(** The same world without [run2_params.yaml]. *)
Definition config_world_without_run2 : world :=
  {| fs := <["my_params.yaml" :=
              FYaml (<["nviz" := YInt 1]> (<["nrestart" := YInt 2]>
                    (<["current_dt" := YFloat 1.0e-9]>
                    (<["t_final" := YFloat 1.0e-8]> ∅))))]> ∅;
     trace := [] |}.

Definition restart_only_cli : cli :=
  {| argv0 := "flame_run.py";
     opt_restart_file := Some "flame1d-000005-0000.pkl";
     opt_input_file := None;
     opt_casename := None |}.

Definition dashed_casename_cli : cli :=
  {| argv0 := "flame_run.py";
     opt_restart_file := Some "my-case-000005-0000.pkl";
     opt_input_file := Some "run2_params.yaml";
     opt_casename := Some "my-case" |}.

Definition apostrophe_restart_cli : cli :=
  {| argv0 := "flame_run.py";
     opt_restart_file := Some "it's-000005-0000.pkl";
     opt_input_file := None;
     opt_casename := None |}.


Definition nested_path_cli : cli :=
  {| argv0 := "flame_run.py";
     opt_restart_file := Some "runs/day 2/it's/flame1d-000005-0003.pkl";
     opt_input_file := None;
     opt_casename := None |}.

(** The world and the result of [advance_state] inside [capped_run]'s
    last stage: two steps from step 5 and time 0. *)
Definition capped_stage_result : outcome (Z * float * list float) * world :=
  advance_state (Mirgecom := capped_mirgecom 2)
    (my_rhs example_comm example_frame)
    (my_checkpoint (H0 := capped_mirgecom 2) example_comm example_frame)
    5.0e-8 [1; 2]%float 2.5e-7 0 5
    (add_events empty_world [Info "Stepping."; AdvanceState 2.5e-7 0 5]).

(** The frame of a run restarted at step 5 with the restart interval
    [n]. *)
Definition frame_with_nrestart (n : Z) : frame :=
  {| casename := "flame1d";
     snapshot_pattern := cli_pattern;
     restart_step := 5;
     parameters := {| nviz := 5; nrestart := n; current_dt := 5.0e-8; t_final := 2.5e-7 |};
     restart := {| local_mesh := 8; global_nelements := 8; current_t := 0;
                   current_step := 5; current_state := [1; 2]%float |} |}.

(** A frame whose timestep is not a number. *)
Definition nan_dt_frame : frame :=
  {| casename := "flame1d";
     snapshot_pattern := cli_pattern;
     restart_step := 5;
     parameters := {| nviz := 5; nrestart := 5; current_dt := nan; t_final := 2.5e-7 |};
     restart := {| local_mesh := 8; global_nelements := 8; current_t := 0;
                   current_step := 5; current_state := [1; 2]%float |} |}.

(** A frame whose restart state holds an infinity. *)
Definition diverged_frame : frame :=
  {| casename := "flame1d";
     snapshot_pattern := cli_pattern;
     restart_step := 5;
     parameters := example_parameters;
     restart := {| local_mesh := 8; global_nelements := 8; current_t := 0;
                   current_step := 5; current_state := [1; infinity]%float |} |}.

(** The world in which the loop of [step_and_finish] starts, on rank 0. *)
Definition stepping_world (fr : frame) : world :=
  add_events empty_world
    [Info "Stepping.";
     AdvanceState (t_final (parameters fr)) (current_t (restart fr))
       (current_step (restart fr))].

(** What the stepper capped at [cap] steps returns for [fr]. *)
Definition stage_result (cap : nat) (fr : frame)
    : outcome (Z * float * list float) * world :=
  advance_state (Mirgecom := capped_mirgecom cap)
    (my_rhs example_comm fr)
    (my_checkpoint (H0 := capped_mirgecom cap) example_comm fr)
    (current_dt (parameters fr)) (current_state (restart fr))
    (t_final (parameters fr)) (current_t (restart fr)) (current_step (restart fr))
    (stepping_world fr).

Definition input_only_cli : cli :=
  {| argv0 := "flame_run.py";
     opt_restart_file := None;
     opt_input_file := Some "run2_params.yaml";
     opt_casename := Some "burner" |}.

Definition full_cli : cli :=
  {| argv0 := "flame_run.py";
     opt_restart_file := Some "runs/burner-000005-0003.pkl";
     opt_input_file := Some "run2_params.yaml";
     opt_casename := Some "burner" |}.

Definition undashed_cli : cli :=
  {| argv0 := "flame_run.py";
     opt_restart_file := Some "runs/restart.pkl";
     opt_input_file := Some "run2_params.yaml";
     opt_casename := None |}.

(** A world whose [run2_params.yaml] holds a list, not a mapping. *)
Definition list_config_world : world :=
  {| fs := <["my_params.yaml" := FOther]> (<["run2_params.yaml" := FYamlOther]> ∅);
     trace := [] |}.

(** A pickled mapping of one part that lacks the key [t]. *)
Definition timeless_mapping : pickled_mapping :=
  {| p_local_mesh := Some (8 : @Mesh list_arrays);
     p_state := Some [1; 2]%float;
     p_t := None;
     p_step := Some 5;
     p_global_nelements := Some 8;
     p_num_parts := Some 1 |}.

Definition timeless_world : world :=
  {| fs := {[ "flame1d-000005-0000.pkl" := FPickle timeless_mapping ]};
     trace := [] |}.

(** A configuration document without [t_final]. *)
Definition short_config_world : world :=
  {| fs := <["my_params.yaml" := FOther]>
           (<["run2_params.yaml" :=
              FYaml (<["nviz" := YInt 7]> (<["nrestart" := YInt 9]>
                    (<["current_dt" := YStr "5e-8"]> ∅)))]> ∅);
     trace := [] |}.

(** The value a stage returned, [d] if it did not return. *)
Definition returned {A} (d : A) (r : outcome A * world) : A :=
  match fst r with
  | Ret a => a
  | _ => d
  end.

(** * Properties *)

(** ** Facts about traces *)

Section TraceFacts.
Context `{Arrays}.

Lemma new_events_add w es : new_events w (add_events w es) = es.
Proof.
  unfold new_events, add_events; simpl.
  rewrite skipn_app, skipn_all, Nat.sub_diag. reflexivity.
Qed.

Lemma add_events_add w es1 es2 :
  add_events (add_events w es1) es2 = add_events w (es1 ++ es2).
Proof. unfold add_events; simpl. now rewrite <- app_assoc. Qed.

End TraceFacts.

(** ** Facts about the runtime functions *)

Module PyFacts.
Import Py.

#[local] Arguments String.append !_ _ / : simpl nomatch.

Lemma all_chars_app p s1 s2 :
  all_chars p (s1 ++ s2) = all_chars p s1 && all_chars p s2.
Proof.
  induction s1 as [| c s1 IH]; cbn; [reflexivity |].
  now rewrite IH, andb_assoc.
Qed.

Lemma all_chars_impl (p q : ascii -> bool) s :
  (forall c, p c = true -> q c = true) ->
  all_chars p s = true -> all_chars q s = true.
Proof.
  intros Hpq. induction s as [| c s IH]; cbn; [reflexivity |].
  rewrite !andb_true_iff. intros [Hc Hs]. auto.
Qed.

(** A character that fails [p] does not occur in a text of [p]s. *)
Lemma all_chars_absent p c s :
  p c = false -> all_chars p s = true -> contains c s = false.
Proof.
  intros Hc. induction s as [| d s IH]; cbn; [reflexivity |].
  rewrite andb_true_iff. intros [Hd Hs].
  rewrite (IH Hs), orb_false_r.
  destruct (Ascii.eqb_spec d c) as [-> |]; [congruence | reflexivity].
Qed.

Lemma contains_app c s1 s2 :
  contains c (s1 ++ s2) = contains c s1 || contains c s2.
Proof.
  induction s1 as [| d s1 IH]; cbn; [reflexivity |].
  now rewrite IH, orb_assoc.
Qed.

Lemma remove_char_absent c s : contains c s = false -> remove_char c s = s.
Proof.
  induction s as [| d s IH]; cbn; [reflexivity |].
  rewrite orb_false_iff. intros [Hd Hs]. rewrite Hd, (IH Hs). reflexivity.
Qed.


(** *** [ascii] *)

Lemma escape_char_plain c : plain_char c = true -> escape_char squote c = String c "".
Proof.
  destruct c as [[] [] [] [] [] [] [] []]; intros Hc;
    first [discriminate Hc | reflexivity].
Qed.

Lemma escape_all_plain s : all_chars plain_char s = true -> escape_all squote s = s.
Proof.
  induction s as [| c s IH]; cbn; [reflexivity |].
  rewrite andb_true_iff. intros [Hc Hs].
  rewrite (escape_char_plain _ Hc), (IH Hs). reflexivity.
Qed.

Lemma escape_char_plain_dquote c :
  plain_char c = true -> Ascii.eqb c dquote = false ->
  escape_char dquote c = String c "".
Proof.
  destruct c as [[] [] [] [] [] [] [] []]; intros Hc Hd;
    first [discriminate Hc | discriminate Hd | reflexivity].
Qed.

Lemma escape_all_plain_dquote s :
  all_chars plain_char s = true -> contains dquote s = false ->
  escape_all dquote s = s.
Proof.
  induction s as [| c s IH]; cbn; [reflexivity |].
  rewrite andb_true_iff, orb_false_iff. intros [Hc Hs] [Hd Hds].
  rewrite (escape_char_plain_dquote _ Hc Hd), (IH Hs Hds). reflexivity.
Qed.

Lemma escape_all_app q s1 s2 :
  escape_all q (s1 ++ s2) = escape_all q s1 ++ escape_all q s2.
Proof.
  induction s1 as [| c s1 IH]; cbn; [reflexivity |].
  rewrite IH. generalize (escape_char q c) as e. intros e.
  induction e as [| d e IHe]; cbn; [reflexivity | now rewrite IHe].
Qed.

(** A text of plain characters comes back between two apostrophes. *)
Lemma py_ascii_plain s :
  all_chars plain_char s = true -> py_ascii s = String squote (s ++ String squote "").
Proof.
  intros Hs. unfold py_ascii, repr_quote.
  rewrite (all_chars_absent plain_char squote s eq_refl Hs). cbn [andb].
  now rewrite escape_all_plain.
Qed.

(** *** [os.path.split] *)

Lemma rcut_no_slash s : contains "/" s = false -> rcut s = None.
Proof.
  induction s as [| c s IH]; cbn; [reflexivity |].
  rewrite orb_false_iff. intros [Hc Hs]. now rewrite (IH Hs), Hc.
Qed.

Lemma rcut_last_slash h t :
  contains "/" t = false -> rcut (h ++ String "/" t) = Some (h ++ "/", t).
Proof.
  intros Ht. induction h as [| c h IH]; cbn.
  - now rewrite (rcut_no_slash _ Ht).
  - now rewrite IH.
Qed.

Lemma os_path_split_no_slash s : contains "/" s = false -> snd (os_path_split s) = s.
Proof. intros Hs. unfold os_path_split. now rewrite (rcut_no_slash _ Hs). Qed.

Lemma os_path_split_last_slash h t :
  contains "/" t = false -> snd (os_path_split (h ++ String "/" t)) = t.
Proof. intros Ht. unfold os_path_split. now rewrite (rcut_last_slash _ _ Ht). Qed.

(** *** [str.split] *)

Lemma split_first_field sep s r :
  contains sep s = false -> split sep (s ++ String sep r) = s :: split sep r.
Proof.
  induction s as [| c s IH]; cbn.
  - intros _. now rewrite Ascii.eqb_refl.
  - rewrite orb_false_iff. intros [Hc Hs]. now rewrite Hc, (IH Hs).
Qed.

(** *** Decimal numerals *)

Lemma zeros_digits k : all_chars is_digit (zeros k) = true.
Proof. induction k; cbn; auto. Qed.

Lemma string_of_uint_digits d : all_chars is_digit (NilEmpty.string_of_uint d) = true.
Proof. induction d; cbn; auto. Qed.

Lemma to_uint_not_nil n : N.to_uint n <> Decimal.Nil.
Proof.
  destruct n as [| p]; cbn; [discriminate |].
  apply DecimalPos.Unsigned.to_uint_nonnil.
Qed.

Lemma decimal_spec n : decimal n = NilEmpty.string_of_uint (N.to_uint n).
Proof.
  unfold decimal, NilZero.string_of_uint.
  pose proof (to_uint_not_nil n). destruct (N.to_uint n); congruence.
Qed.

Lemma decimal_digits n : all_chars is_digit (decimal n) = true.
Proof. rewrite decimal_spec. apply string_of_uint_digits. Qed.

Lemma decimal_not_empty n : decimal n <> "".
Proof.
  rewrite decimal_spec. pose proof (to_uint_not_nil n).
  destruct (N.to_uint n); cbn; congruence.
Qed.

Lemma uint_of_zeros k d :
  NilEmpty.uint_of_string (zeros k ++ NilEmpty.string_of_uint d)
  = Some (Nat.iter k Decimal.D0 d).
Proof.
  induction k as [| k IH]; cbn.
  - apply NilEmpty.usu.
  - cbn in IH. rewrite IH. reflexivity.
Qed.

Lemma of_uint_zeros k d : N.of_uint (Nat.iter k Decimal.D0 d) = N.of_uint d.
Proof. induction k as [| k IH]; cbn; [reflexivity | exact IH]. Qed.

(** The step field of a file name, for a step that is not negative. *)
Lemma format_0d_nonneg w n :
  0 <= n -> format_0d w n = zeros (w - String.length (decimal (Z.abs_N n))) ++ decimal (Z.abs_N n).
Proof.
  intros Hn. unfold format_0d.
  destruct (Z.ltb_spec n 0); [lia | reflexivity].
Qed.

Lemma format_0d_nonneg_digits w n : 0 <= n -> all_chars is_digit (format_0d w n) = true.
Proof.
  intros Hn. rewrite (format_0d_nonneg _ _ Hn), all_chars_app.
  now rewrite zeros_digits, decimal_digits.
Qed.

Lemma format_0d_not_empty w n : format_0d w n <> "".
Proof.
  unfold format_0d. destruct (n <? 0); [discriminate |].
  pose proof (decimal_not_empty (Z.abs_N n)).
  destruct (zeros _); cbn; [assumption | discriminate].
Qed.

Lemma format_0d_field_chars w n : all_chars field_char (format_0d w n) = true.
Proof.
  assert (Hd : forall s, all_chars is_digit s = true -> all_chars field_char s = true).
  { intros s. apply all_chars_impl. intros c Hc. unfold field_char. now rewrite Hc. }
  unfold format_0d. destruct (n <? 0); cbn -[Nat.sub].
  - apply Hd. rewrite all_chars_app. now rewrite zeros_digits, decimal_digits.
  - apply Hd. rewrite all_chars_app. now rewrite zeros_digits, decimal_digits.
Qed.

Lemma field_char_plain c : field_char c = true -> plain_char c = true.
Proof.
  destruct c as [[] [] [] [] [] [] [] []]; intros Hc;
    first [discriminate Hc | reflexivity].
Qed.

(** *** [int] on a field of digits *)

Lemma lstrip_digits s : all_chars is_digit s = true -> lstrip s = s.
Proof.
  destruct s as [| c s]; cbn; [reflexivity |].
  rewrite andb_true_iff. intros [Hc _].
  destruct c as [[] [] [] [] [] [] [] []]; first [discriminate Hc | reflexivity].
Qed.

Lemma rstrip_digits s : all_chars is_digit s = true -> rstrip s = s.
Proof.
  induction s as [| c s IH]; cbn; [reflexivity |].
  rewrite andb_true_iff. intros [Hc Hs]. rewrite (IH Hs).
  destruct s; [| reflexivity].
  destruct c as [[] [] [] [] [] [] [] []]; first [discriminate Hc | reflexivity].
Qed.

Lemma split_sign_digits s : all_chars is_digit s = true -> split_sign s = (false, s).
Proof.
  destruct s as [| c s]; cbn; [reflexivity |].
  rewrite andb_true_iff. intros [Hc _].
  destruct c as [[] [] [] [] [] [] [] []]; first [discriminate Hc | reflexivity].
Qed.

Lemma digitpart_digits b s :
  all_chars is_digit s = true -> s <> "" \/ b = true -> digitpart b s = Some s.
Proof.
  revert b. induction s as [| c s IH]; cbn; intros b Hs Hb.
  - destruct Hb as [Hb | ->]; [congruence | reflexivity].
  - apply andb_true_iff in Hs as [Hc Hs]. rewrite Hc.
    rewrite (IH true Hs (or_intror eq_refl)). reflexivity.
Qed.

Lemma int_of_str_format_0d w n : 0 <= n -> int_of_str (format_0d w n) = Ok n.
Proof.
  intros Hn. pose proof (format_0d_nonneg_digits w n Hn) as Hd.
  unfold int_of_str, strip.
  rewrite (lstrip_digits _ Hd), (rstrip_digits _ Hd), (split_sign_digits _ Hd).
  unfold digits_value.
  rewrite (digitpart_digits false _ Hd (or_introl (format_0d_not_empty w n))).
  rewrite (format_0d_nonneg _ _ Hn), decimal_spec, uint_of_zeros. cbn [option_map].
  rewrite of_uint_zeros, DecimalN.Unsigned.of_to, N2Z.inj_abs_N, Z.abs_eq by assumption.
  reflexivity.
Qed.

Lemma append_assoc (s1 s2 s3 : string) : (s1 ++ s2) ++ s3 = s1 ++ (s2 ++ s3).
Proof. induction s1 as [| c s1 IH]; cbn; [reflexivity | now rewrite IH]. Qed.

End PyFacts.

(** ** Properties of the closures *)

Section ClosureProperties.
Context `{Mirgecom}.
Variable comm : Comm.

Lemma s0_sc_unbound : Py.name_bound my_rhs_scopes "s0_sc" = false.
Proof. vm_compute. reflexivity. Qed.

(** C1. On a state whose norm is not finite, [my_rhs] logs (on rank 0)
    and then fails with [NameError] on [s0_sc] while it evaluates the
    arguments of the emergency [sim_checkpoint] call: the call itself is
    never made, no checkpoint with step 999999999 is written, and the
    process ends in the exception, not in [exit()]. *)
Theorem my_rhs_nonfinite_raises_NameError fr t state w :
  is_finite (norm_inf state) = false ->
  my_rhs comm fr t state w =
    (Raise (NameError "s0_sc"),
     add_events w
       (if Get_rank comm =? 0
        then [Info "Non-finite values detected in simulation, exiting..."]
        else [])).
Proof.
  intros Hnf. unfold my_rhs. rewrite Hnf. cbn [negb].
  unfold bind, when, load_name. rewrite s0_sc_unbound.
  destruct (Get_rank comm =? 0); cbn.
  - reflexivity.
  - unfold raise, add_events. rewrite app_nil_r. destruct w; reflexivity.
Qed.

(** The state [my_checkpoint] leaves behind, spelled out. *)
Lemma my_checkpoint_run fr step t dt state w :
  my_checkpoint comm fr step t dt state w =
    (Ret tt,
     let call := SimCheckpoint
                   {| sc_q := state; sc_vizname := casename fr; sc_step := step;
                      sc_t := t; sc_dt := dt; sc_nviz := nviz (parameters fr) |} in
     if negb (step =? restart_step fr) && check_step step (nrestart (parameters fr))
     then
       let path := format (snapshot_pattern fr) (casename fr) step (Get_rank comm) in
       let r := {| r_local_mesh := local_mesh (restart fr);
                   r_state := flatten state; r_t := t; r_step := step;
                   r_global_nelements := global_nelements (restart fr);
                   r_num_parts := Get_size comm |} in
       {| fs := <[path := FSnapshot r]> (fs w);
          trace := trace w ++ [WriteSnapshot path r; call] |}
     else add_events w [call]).
Proof.
  unfold my_checkpoint, bind, when, dump, emit, ret, add_events.
  destruct (negb (step =? restart_step fr)); cbn.
  - destruct (check_step step (nrestart (parameters fr))); cbn.
    + now rewrite <- app_assoc.
    + reflexivity.
  - reflexivity.
Qed.

Lemma writes_restart_iff fr step t dt state w :
  writes_restart comm fr step t dt state w <->
  negb (step =? restart_step fr) && check_step step (nrestart (parameters fr)) = true.
Proof.
  unfold writes_restart. rewrite my_checkpoint_run. cbn [snd].
  destruct (negb (step =? restart_step fr) && check_step step (nrestart (parameters fr))).
  - split; [reflexivity | intros _].
    eexists _, _. unfold new_events; cbn.
    rewrite skipn_app, skipn_all, Nat.sub_diag. cbn. left; reflexivity.
  - rewrite new_events_add. split; [| discriminate].
    intros (path & r & [Hin | []]). discriminate.
Qed.

Lemma snapshot_written_iff fr step t dt state w :
  snapshot_written comm fr step t dt state w <->
  negb (step =? restart_step fr) && check_step step (nrestart (parameters fr)) = true.
Proof.
  unfold snapshot_written. rewrite my_checkpoint_run. cbn [snd].
  destruct (negb (step =? restart_step fr) && check_step step (nrestart (parameters fr))).
  - cbv zeta. cbn [fs]. split; [reflexivity | intros _].
    split; [apply lookup_insert_eq |].
    unfold new_events; cbn [trace].
    rewrite skipn_app, skipn_all, Nat.sub_diag. cbn. left; reflexivity.
  - cbv zeta. rewrite new_events_add. split; [| discriminate].
    intros [_ [Hin | []]]. discriminate.
Qed.

(** C2, as the code has it. With mirgecom's [check_step] (interval 0:
    always; negative interval: never; otherwise every [interval] steps),
    [my_checkpoint(step, t, dt, state)] leaves the restart snapshot of
    [step] behind exactly when [step] is not the step the run was
    restarted from and either [nrestart] is positive and [step] is a
    multiple of it, or [nrestart] is 0. When it does not, it writes no
    snapshot at all and the files are as they were. *)
Theorem my_checkpoint_restart_cadence fr step t dt state w :
  (forall s interval,
     check_step s interval =
       if interval =? 0 then true
       else if interval <? 0 then false
       else s mod interval =? 0) ->
  (snapshot_written comm fr step t dt state w <->
   step <> restart_step fr /\
   (nrestart (parameters fr) = 0 \/
    (0 < nrestart (parameters fr) /\ step mod nrestart (parameters fr) = 0))) /\
  (~ snapshot_written comm fr step t dt state w ->
   fs (snd (my_checkpoint comm fr step t dt state w)) = fs w /\
   ~ writes_restart comm fr step t dt state w).
Proof.
  intros Hcs. split.
  - rewrite snapshot_written_iff, Hcs.
    rewrite andb_true_iff, negb_true_iff, Z.eqb_neq.
    destruct (Z.eqb_spec (nrestart (parameters fr)) 0) as [Hz | Hz].
    + intuition.
    + destruct (Z.ltb_spec (nrestart (parameters fr)) 0) as [Hneg | Hpos].
      * split; [intros [_ Hf]; discriminate Hf | intros [_ [Hn | [Hn _]]]; lia].
      * rewrite Z.eqb_eq. split.
        -- intros [Hne Hmod]. split; [exact Hne |]. right. split; [lia | exact Hmod].
        -- intros [Hne [Hn | [_ Hmod]]]; [contradiction | auto].
  - intros Hnot. rewrite snapshot_written_iff in Hnot.
    rewrite writes_restart_iff. split; [| exact Hnot].
    rewrite my_checkpoint_run. cbn [snd].
    destruct (negb (step =? restart_step fr) && check_step step (nrestart (parameters fr)));
      [contradiction | reflexivity].
Qed.

End ClosureProperties.

(** ** Properties of [run_flame] *)

Section DriverProperties.
Context `{Mirgecom}.
Variable comm : Comm.

Lemma new_events_app (w : world) m es :
  new_events w {| fs := m; trace := trace w ++ es |} = es.
Proof.
  unfold new_events; cbn.
  rewrite skipn_app, skipn_all, Nat.sub_diag. reflexivity.
Qed.

(** C6. With [restart_step=None], [run_flame] logs one message on rank 0
    and exits: nothing else happens to the world, whatever the other
    arguments and whatever the collaborators would do. *)
Theorem run_flame_without_restart_step
    casename user_input_file snapshot_pattern restart_name use_logmgr w :
  run_flame comm casename user_input_file snapshot_pattern None restart_name use_logmgr w =
    (Exit,
     add_events w
       (if Get_rank comm =? 0
        then [Info "Driver only supports restart, not initialization"]
        else [])).
Proof.
  unfold run_flame, bind, when, exit.
  destruct (Get_rank comm =? 0); cbn.
  - reflexivity.
  - unfold add_events. rewrite app_nil_r. destruct w; reflexivity.
Qed.

(** The configuration stage never reads the document of the file it was
    given: with a file name supplied, the parameters are those of
    [run2_params.yaml]. *)
Lemma read_run_parameters_supplied user_input_file w f doc :
  user_input_file <> "" ->
  fs w !! user_input_file = Some f ->
  fs w !! "run2_params.yaml" = Some (FYaml doc) ->
  read_run_parameters user_input_file w =
    let w' := add_events w [OpenRead user_input_file; OpenRead "run2_params.yaml"] in
    match
      result_bind (result_bind (getitem doc "nviz") py_int) (fun nviz =>
      result_bind (result_bind (getitem doc "nrestart") py_int) (fun nrestart =>
      result_bind (result_bind (getitem doc "current_dt") py_float) (fun current_dt =>
      result_bind (result_bind (getitem doc "t_final") py_float) (fun t_final =>
      Ok {| nviz := nviz; nrestart := nrestart;
            current_dt := current_dt; t_final := t_final |}))))
    with
    | Ok p => (Ret p, w')
    | Fail e => (Raise e, w')
    end.
Proof.
  intros Hne Hf Hrun. unfold read_run_parameters.
  destruct (String.eqb_spec user_input_file ""); [contradiction |].
  unfold bind at 1. unfold open at 1. rewrite Hf.
  unfold bind at 1. unfold open at 1. cbn [fs add_events]. rewrite Hrun.
  rewrite add_events_add. cbn [app].
  unfold bind, yaml_load, subscript, ret, lift, raise.
  destruct (result_bind (getitem doc "nviz") py_int); cbn; [| reflexivity].
  destruct (result_bind (getitem doc "nrestart") py_int); cbn; [| reflexivity].
  destruct (result_bind (getitem doc "current_dt") py_float); cbn; [| reflexivity].
  destruct (result_bind (getitem doc "t_final") py_float); cbn; reflexivity.
Qed.

(** Without a file name the defaults stand. *)
Lemma read_run_parameters_default w :
  read_run_parameters "" w = (Ret default_parameters, w).
Proof. reflexivity. Qed.

(** The restart stage on a world that holds the snapshot. *)
Lemma process_restart_run snapshot_pattern restart_name restart_step w r :
  let path := format snapshot_pattern restart_name restart_step (Get_rank comm) in
  fs w !! path = Some (FSnapshot r) ->
  process_restart comm snapshot_pattern restart_name restart_step w =
    if Get_size comm =? r_num_parts r
    then (Ret {| local_mesh := r_local_mesh r;
                 global_nelements := r_global_nelements r;
                 current_t := r_t r;
                 current_step := restart_step;
                 current_state := unflatten (r_state r) |},
          add_events w
            (OpenRead path ::
             (if Get_rank comm =? 0 then [Info "Making discretization"] else []) ++
             [MakeDiscretization (r_local_mesh r)]))
    else (Raise AssertionError, add_events w [OpenRead path]).
Proof.
  intros path Hf. unfold process_restart. fold path.
  unfold bind at 1. unfold open at 1. rewrite Hf.
  unfold bind at 1. unfold pickle_load, ret.
  unfold bind at 1. unfold lift at 1. cbn [restart_key mapping_of_record p_local_mesh]. unfold ret at 1.
  unfold bind at 1. unfold lift at 1. cbn [restart_key mapping_of_record p_global_nelements]. unfold ret at 1.
  unfold bind at 1. unfold lift at 1. cbn [restart_key mapping_of_record p_num_parts]. unfold ret at 1.
  unfold bind at 1.
  destruct (Get_size comm =? r_num_parts r); [| reflexivity].
  unfold bind, when, emit, ret, lift.
  destruct (Get_rank comm =? 0); cbn; rewrite !add_events_add; reflexivity.
Qed.

(** C4. Once the snapshot of this rank is loaded, the restart stage of
    [run_flame] fails with [AssertionError] exactly when the world size
    differs from the stored [num_parts]; when they are equal it goes on
    to build the discretization and returns the restart state. *)
Theorem restart_asserts_same_partition_count
    snapshot_pattern restart_name restart_step w r :
  fs w !! format snapshot_pattern restart_name restart_step (Get_rank comm)
    = Some (FSnapshot r) ->
  (fst (process_restart comm snapshot_pattern restart_name restart_step w)
     = Raise AssertionError
   <-> Get_size comm <> r_num_parts r) /\
  (Get_size comm = r_num_parts r ->
   exists rs w',
     process_restart comm snapshot_pattern restart_name restart_step w = (Ret rs, w') /\
     In (MakeDiscretization (r_local_mesh r)) (new_events w w')).
Proof.
  intros Hf. rewrite (process_restart_run _ _ _ _ _ Hf).
  destruct (Z.eqb_spec (Get_size comm) (r_num_parts r)) as [Heq | Hne]; cbn [fst].
  - split; [split; [discriminate | contradiction] |].
    intros _. eexists _, _. split; [reflexivity |].
    rewrite new_events_add. right. apply in_or_app. right. left. reflexivity.
  - split; [tauto | contradiction].
Qed.

(** The size mismatch surfaces from [run_flame] itself, before any
    discretization is made. *)
Lemma run_flame_size_mismatch
    casename snapshot_pattern restart_step restart_name use_logmgr w r :
  let name := match restart_name with None => casename | Some n => n end in
  let path := format snapshot_pattern name restart_step (Get_rank comm) in
  fs w !! path = Some (FSnapshot r) ->
  Get_size comm <> r_num_parts r ->
  run_flame comm casename "" snapshot_pattern (Some restart_step) restart_name use_logmgr w =
    (Raise AssertionError,
     add_events w
       ([InitLogmgr use_logmgr; CreateContext] ++
        (if Get_rank comm =? 0
         then [PrintControl 5 5 5.0e-8 2.5e-7] else []) ++
        [SetupThermochemistry; OpenRead path])).
Proof.
  intros name path Hf Hne. unfold run_flame. fold name.
  unfold bind at 1. unfold emit at 1.
  unfold bind at 1. unfold emit at 1.
  unfold bind at 1. rewrite read_run_parameters_default.
  unfold bind at 1. unfold when, emit, ret.
  assert (Hf' : forall es, fs (add_events w es) !! path = Some (FSnapshot r)) by (intros; exact Hf).
  destruct (Get_rank comm =? 0) eqn:Hr; cbn [default_parameters nviz nrestart current_dt t_final];
    unfold bind at 1; unfold bind at 1;
    rewrite !add_events_add;
    rewrite (process_restart_run _ _ _ _ _ (Hf' _));
    apply Z.eqb_neq in Hne; rewrite Hne, add_events_add; reflexivity.
Qed.

(** C5, as the code has it. When [advance_state] returns with
    [current_t - t_final < 0], [run_flame] logs (on rank 0), calls
    [my_checkpoint] once with the final step, time and state, and only
    then raises [ValueError]. The call writes a restart snapshot of the
    final state only when [my_checkpoint]'s own test lets it: the final
    step is not [restart_step] and [check_step] accepts it. *)
Theorem final_checkpoint_precedes_error fr logmgr w step t state w1 :
  advance_state (my_rhs comm fr) (my_checkpoint comm fr)
    (current_dt (parameters fr)) (current_state (restart fr))
    (t_final (parameters fr)) (current_t (restart fr)) (current_step (restart fr))
    (add_events w
       ((if Get_rank comm =? 0 then [Info "Stepping."] else []) ++
        [AdvanceState (t_final (parameters fr)) (current_t (restart fr))
           (current_step (restart fr))]))
  = (Ret (step, t, state), w1) ->
  ended_early t (t_final (parameters fr)) = true ->
  exists w2,
    step_and_finish comm fr logmgr w
      = (Raise (ValueError "Simulation exited abnormally"), w2) /\
    new_events w1 w2 =
      ((if Get_rank comm =? 0 then [Info "Checkpointing final state ..."] else []) ++
      (if negb (step =? restart_step fr) && check_step step (nrestart (parameters fr))
       then [WriteSnapshot
               (format (snapshot_pattern fr) (casename fr) step (Get_rank comm))
               {| r_local_mesh := local_mesh (restart fr);
                  r_state := flatten state; r_t := t; r_step := step;
                  r_global_nelements := global_nelements (restart fr);
                  r_num_parts := Get_size comm |}]
       else []) ++
      [SimCheckpoint {| sc_q := state; sc_vizname := casename fr; sc_step := step;
                        sc_t := t; sc_dt := (t - 0)%float;
                        sc_nviz := nviz (parameters fr) |}])%list.
Proof.
  intros Hadv Hearly. unfold step_and_finish.
  set (info := if Get_rank comm =? 0 then [Info "Checkpointing final state ..."] else []).
  assert (Hpre : forall (k : M unit),
            bind (when (Get_rank comm =? 0) (emit (Info "Stepping.")))
              (fun _ => bind (emit (AdvanceState (t_final (parameters fr))
                                      (current_t (restart fr)) (current_step (restart fr))))
                          (fun _ => k)) w
            = k (add_events w
                   ((if Get_rank comm =? 0 then [Info "Stepping."] else []) ++
                    [AdvanceState (t_final (parameters fr)) (current_t (restart fr))
                       (current_step (restart fr))]))).
  { intros k. unfold bind, when, emit, ret.
    destruct (Get_rank comm =? 0); cbn; rewrite ?add_events_add; reflexivity. }
  rewrite Hpre. unfold bind at 1. rewrite Hadv.
  assert (Hinfo : forall (k : M unit),
            bind (when (Get_rank comm =? 0) (emit (Info "Checkpointing final state ...")))
              (fun _ => k) w1 = k (add_events w1 info)).
  { intros k. unfold bind, when, emit, ret, info.
    destruct (Get_rank comm =? 0); cbn; [reflexivity |].
    unfold add_events. rewrite app_nil_r. destruct w1; reflexivity. }
  rewrite Hinfo. unfold bind at 1. rewrite my_checkpoint_run. rewrite Hearly.
  eexists. split; [reflexivity |].
  destruct (negb (step =? restart_step fr) && check_step step (nrestart (parameters fr)));
    cbv zeta; unfold add_events; cbn [fs trace]; rewrite <- app_assoc;
    apply new_events_app.
Qed.

(** C7, as the code has it. For a snapshot whose [num_parts] is the
    world size, the restart stage sets the initial time to the stored [t]
    and the initial step to [restart_step]. A [my_checkpoint] call at that
    step (no integrator step taken) writes no restart record. Every record
    that [my_checkpoint] does write carries the snapshot's
    [global_nelements] and [num_parts], and the time it was called with. *)
Theorem restart_then_checkpoint
    casename snapshot_pattern restart_name restart_step p w r :
  fs w !! format snapshot_pattern restart_name restart_step (Get_rank comm)
    = Some (FSnapshot r) ->
  Get_size comm = r_num_parts r ->
  exists rs w',
    process_restart comm snapshot_pattern restart_name restart_step w = (Ret rs, w') /\
    current_t rs = r_t r /\
    current_step rs = restart_step /\
    let fr := {| casename := casename; snapshot_pattern := snapshot_pattern;
                 restart_step := restart_step; parameters := p; restart := rs |} in
    (forall dt state w1,
       ~ writes_restart comm fr (current_step rs) (current_t rs) dt state w1) /\
    (forall step t dt state w1 path rec,
       In (WriteSnapshot path rec)
          (new_events w1 (snd (my_checkpoint comm fr step t dt state w1))) ->
       r_global_nelements rec = r_global_nelements r /\
       r_num_parts rec = r_num_parts r /\
       r_t rec = t).
Proof.
  intros Hf Hsize. rewrite (process_restart_run _ _ _ _ _ Hf).
  apply Z.eqb_eq in Hsize as Hsize'. rewrite Hsize'.
  eexists _, _. split; [reflexivity |].
  cbn [current_t current_step]. split; [reflexivity |]. split; [reflexivity |].
  cbv zeta. split.
  - intros dt state w1 Hw. apply writes_restart_iff in Hw.
    cbn in Hw. rewrite Z.eqb_refl in Hw. discriminate.
  - intros step t dt state w1 path rec. rewrite my_checkpoint_run. cbn [snd].
    cbn -[skipn format].
    destruct (negb (step =? restart_step) && check_step step (nrestart p)).
    + cbv zeta. rewrite <- (app_nil_r (trace w1)) at 1.
      unfold new_events; cbn [trace].
      rewrite app_nil_r, skipn_app, skipn_all, Nat.sub_diag. cbn.
      intros [Heq | [Heq | []]]; [| discriminate].
      injection Heq as _ <-. cbn. auto.
    + rewrite new_events_add. intros [Heq | []]. discriminate.
Qed.

End DriverProperties.

(** ** Properties of the command line *)

Section CommandLineProperties.
Context `{Mirgecom}.
Variable comm : Comm.

Lemma add_events_nil w : add_events w [] = w.
Proof. unfold add_events. rewrite app_nil_r. destruct w; reflexivity. Qed.

Lemma truthy_py_ascii s : truthy (Some (Py.py_ascii s)) = Some (Py.py_ascii s).
Proof. reflexivity. Qed.

Lemma parse_casename_run (a : option string) w :
  parse_casename (option_map Py.py_ascii a) w =
    match a with
    | Some raw =>
        (Ret (Py.remove_char "'" (Py.py_ascii raw)),
         add_events w [Print ("Custom casename " ++ Py.py_ascii raw)])
    | None => (Ret "flame1d", add_events w [Print "Default casename flame1d"])
    end.
Proof. destruct a; reflexivity. Qed.

Lemma parse_input_file_run (a : option string) w :
  parse_input_file (option_map Py.py_ascii a) w =
    match a with
    | Some raw =>
        (Ret (Some (Py.remove_char "'" (Py.py_ascii raw))),
         add_events w [Print ("Reading user input from " ++ Py.py_ascii raw)])
    | None =>
        (Ret None, add_events w [Print "No user input file, using default values"])
    end.
Proof. destruct a; reflexivity. Qed.

(** The restart stage prints, and then returns or raises. *)
Lemma parse_restart_file_shape (a : option string) w :
  exists o es,
    parse_restart_file a w = (o, add_events w es) /\
    forallb is_print es = true /\
    o <> Exit /\
    (a = None -> o = Ret (None, None)).
Proof.
  unfold parse_restart_file.
  destruct (truthy a) as [s |] eqn:Ha.
  - destruct (Py.os_path_split s) as [file_path file_name].
    unfold bind, emit, lift, ret, raise.
    destruct (Py.index (Py.split "-" file_name) 1) as [field1 | e1].
    + destruct (Py.int_of_str field1) as [n | e2].
      * destruct (Py.index (Py.split "-" file_name) 0) as [field0 | e3].
        -- eexists _, _. rewrite !add_events_add. split; [reflexivity |].
           split; [reflexivity |]. split; [discriminate |]. intros ->. discriminate.
        -- eexists _, _. split; [reflexivity |].
           split; [reflexivity |]. split; [discriminate |]. intros ->. discriminate.
      * eexists _, _. split; [reflexivity |].
        split; [reflexivity |]. split; [discriminate |]. intros ->. discriminate.
    + eexists _, _. split; [reflexivity |].
      split; [reflexivity |]. split; [discriminate |]. intros ->. discriminate.
  - exists (Ret (None, None)), []. rewrite add_events_nil.
    split; [reflexivity |]. split; [reflexivity |]. split; [discriminate | reflexivity].
Qed.

(** What [command_line] can do: print, then return the module
    variables or raise. *)
Lemma command_line_shape c w :
  exists o es,
    command_line c w = (o, add_events w es) /\
    forallb is_print es = true /\
    o <> Exit /\
    (forall st, o = Ret st ->
       v_casename st =
         match opt_casename c with
         | Some raw => Py.remove_char "'" (Py.py_ascii raw)
         | None => "flame1d"
         end /\
       v_input_file st =
         option_map (fun raw => Py.remove_char "'" (Py.py_ascii raw)) (opt_input_file c)) /\
    (opt_restart_file c = None -> exists st, o = Ret st).
Proof.
  unfold command_line. unfold bind at 1. rewrite parse_casename_run.
  set (es1 := match opt_casename c with
              | Some raw => [Print ("Custom casename " ++ Py.py_ascii raw)]
              | None => [Print "Default casename flame1d"]
              end).
  set (name := match opt_casename c with
               | Some raw => Py.remove_char "'" (Py.py_ascii raw)
               | None => "flame1d"
               end).
  assert (Hes1 : forallb is_print es1 = true) by (unfold es1; destruct (opt_casename c); reflexivity).
  replace (match opt_casename c with
           | Some raw => (Ret (Py.remove_char "'" (Py.py_ascii raw)),
                          add_events w [Print ("Custom casename " ++ Py.py_ascii raw)])
           | None => (Ret "flame1d", add_events w [Print "Default casename flame1d"])
           end) with (@Ret string name, add_events w es1)
    by (unfold name, es1; destruct (opt_casename c); reflexivity).
  unfold bind at 1.
  destruct (parse_restart_file_shape (option_map Py.py_ascii (opt_restart_file c))
              (add_events w es1)) as (o & es2 & -> & Hes2 & Hexit & Hnone).
  rewrite add_events_add.
  destruct o as [r | e |]; [| | contradiction].
  - unfold bind at 1. rewrite parse_input_file_run.
    destruct (opt_input_file c) as [raw |]; unfold ret; rewrite add_events_add;
      eexists _, _; (split; [reflexivity |]);
      (split; [rewrite !forallb_app, Hes1, Hes2; reflexivity |]);
      (split; [discriminate |]);
      (split; [intros st [= <-]; split; reflexivity | intros _; eexists; reflexivity]).
  - eexists _, _. split; [reflexivity |].
    split; [rewrite forallb_app, Hes1, Hes2; reflexivity |].
    split; [discriminate |].
    split; [intros st [=] |].
    intros Hr. rewrite Hr in Hnone. specialize (Hnone eq_refl). discriminate.
Qed.

(** C8, as the code has it. A command line without [-i] never reaches
    [run_flame]: after its prints the program ends in an exception, which
    is [NameError] on [input_file] unless parsing the [-r] value failed
    first (and so always when [-r] is absent). *)
Theorem main_without_input_file_raises c w :
  opt_input_file c = None ->
  exists e es,
    main comm c w = (Raise e, add_events w es) /\
    forallb is_print es = true /\
    ((exists st w', command_line c w = (Ret st, w')) -> e = NameError "input_file") /\
    (opt_restart_file c = None -> e = NameError "input_file").
Proof.
  intros Hi. unfold main. unfold bind at 1.
  destruct (command_line_shape c w) as (o & es & Hrun & Hes & Hexit & Hret & Hnone).
  rewrite Hrun. destruct o as [st | e |]; [| | contradiction].
  - destruct (Hret st eq_refl) as [_ Hin]. rewrite Hi in Hin.
    unfold bind, emit, load_global, raise. rewrite Hin, add_events_add.
    eexists _, _. split; [reflexivity |].
    split; [rewrite forallb_app, Hes; reflexivity |].
    split; reflexivity.
  - eexists _, _. split; [reflexivity |]. split; [exact Hes |].
    split.
    + intros (st & w' & [=]).
    + intros Hr. destruct (Hnone Hr) as [st [=]].
Qed.

(** The file name pattern of the command line, spelled out. *)
Lemma format_cli_pattern name step rank :
  format cli_pattern name step rank =
    name ++ String "-" (Py.format_0d 6 step ++ String "-" (Py.format_0d 4 rank ++ ".pkl")).
Proof. reflexivity. Qed.

Lemma step_rank_suffix_plain step rank :
  Py.all_chars Py.plain_char
    (String "-" (Py.format_0d 6 step ++ String "-" (Py.format_0d 4 rank ++ ".pkl"))) = true.
Proof.
  assert (Hf : forall w n, Py.all_chars Py.plain_char (Py.format_0d w n) = true).
  { intros w n. apply (PyFacts.all_chars_impl Py.field_char).
    - exact PyFacts.field_char_plain.
    - apply PyFacts.format_0d_field_chars. }
  change (Py.all_chars Py.plain_char
            ("-" ++ Py.format_0d 6 step ++ "-" ++ Py.format_0d 4 rank ++ ".pkl") = true).
  rewrite !PyFacts.all_chars_app, !Hf. reflexivity.
Qed.

Lemma step_rank_suffix_no_slash step rank :
  Py.contains "/"
    (String "-" (Py.format_0d 6 step ++ String "-" (Py.format_0d 4 rank ++ ".pkl"))) = false.
Proof.
  assert (Hf : forall w n, Py.contains "/" (Py.format_0d w n) = false).
  { intros w n. apply (PyFacts.all_chars_absent Py.field_char); [reflexivity |].
    apply PyFacts.format_0d_field_chars. }
  change (Py.contains "/"
            ("-" ++ Py.format_0d 6 step ++ "-" ++ Py.format_0d 4 rank ++ ".pkl") = false).
  rewrite !PyFacts.contains_app, !Hf. reflexivity.
Qed.

(** The base name [os.path.split] finds in the quoted path, for a base
    name of plain characters under any directory: the closing quote stays
    on it, and the opening apostrophe too when there is no directory
    part. *)
Lemma file_name_of_path dir base :
  Py.all_chars Py.plain_char base = true ->
  Py.contains "/" base = false ->
  dir = "" \/ (exists d, dir = d ++ "/") ->
  exists x q,
    (x = "" \/ x = "'") /\
    snd (Py.os_path_split (Py.py_ascii (dir ++ base))) = x ++ base ++ String q "".
Proof.
  intros Hplain Hbase Hdir.
  assert (Hsq : Py.contains Py.squote base = false)
    by (apply (PyFacts.all_chars_absent Py.plain_char); [reflexivity | exact Hplain]).
  destruct Hdir as [-> | [d ->]].
  - exists "'", Py.squote. split; [now right |].
    change ("" ++ base) with base.
    rewrite (PyFacts.py_ascii_plain _ Hplain).
    apply PyFacts.os_path_split_no_slash.
    change (Py.contains "/" ("'" ++ base ++ "'") = false).
    rewrite !PyFacts.contains_app, Hbase. reflexivity.
  - unfold Py.py_ascii.
    set (q := Py.repr_quote ((d ++ "/") ++ base)).
    assert (Hq : q = Py.squote \/
                 (q = Py.dquote /\ Py.contains Py.dquote base = false)).
    { unfold q, Py.repr_quote.
      destruct (Py.contains Py.dquote ((d ++ "/") ++ base)) eqn:Hd.
      - left. now rewrite andb_false_r.
      - rewrite PyFacts.contains_app in Hd. apply orb_false_iff in Hd as [_ Hd].
        destruct (Py.contains Py.squote ((d ++ "/") ++ base)); cbn; auto. }
    assert (Hesc : Py.escape_all q base = base).
    { destruct Hq as [-> | [-> Hd]].
      - now apply PyFacts.escape_all_plain.
      - now apply PyFacts.escape_all_plain_dquote. }
    assert (Hslash : Py.escape_all q "/" = "/")
      by (destruct Hq as [-> | [-> _]]; reflexivity).
    assert (Hqs : Py.contains "/" (String q "") = false)
      by (destruct Hq as [-> | [-> _]]; reflexivity).
    exists "", q. split; [now left |].
    change ("" ++ base ++ String q "") with (base ++ String q "").
    rewrite !PyFacts.escape_all_app, Hesc, Hslash.
    replace (String q (((Py.escape_all q d ++ "/") ++ base) ++ String q ""))
      with (String q (Py.escape_all q d) ++ String "/" (base ++ String q "")).
    + apply PyFacts.os_path_split_last_slash.
      now rewrite PyFacts.contains_app, Hbase, Hqs.
    + change (String q (Py.escape_all q d) ++ String "/" (base ++ String q ""))
        with (String q (Py.escape_all q d ++ "/" ++ (base ++ String q ""))).
      f_equal. now rewrite !PyFacts.append_assoc.
Qed.

(** The restart stage on a path whose base name follows the pattern. *)
Lemma parse_restart_file_pattern dir name step rank w :
  Py.all_chars Py.plain_char name = true ->
  Py.contains "-" name = false ->
  Py.contains "/" name = false ->
  dir = "" \/ (exists d, dir = d ++ "/") ->
  0 <= step ->
  exists es,
    parse_restart_file
      (Some (Py.py_ascii (dir ++ format cli_pattern name step rank))) w
    = (Ret (Some step, Some name), add_events w es).
Proof.
  intros Hname Hdash Hslash Hdir Hstep.
  rewrite format_cli_pattern.
  set (f6 := Py.format_0d 6 step).
  set (rest := Py.format_0d 4 rank ++ ".pkl").
  set (base := name ++ String "-" (f6 ++ String "-" rest)).
  assert (Hall : Py.all_chars Py.plain_char base = true).
  { unfold base. rewrite PyFacts.all_chars_app, Hname.
    apply step_rank_suffix_plain. }
  assert (Hbase : Py.contains "/" base = false).
  { unfold base. rewrite PyFacts.contains_app, Hslash.
    apply step_rank_suffix_no_slash. }
  destruct (file_name_of_path dir base Hall Hbase Hdir) as (x & q & Hx & Hfile).
  assert (Hfields : Py.split "-" (x ++ base ++ String q "")
                    = (x ++ name) :: f6 :: Py.split "-" (rest ++ String q "")).
  { unfold base.
    replace (x ++ (name ++ String "-" (f6 ++ String "-" rest)) ++ String q "")
      with ((x ++ name) ++ String "-" (f6 ++ String "-" (rest ++ String q ""))).
    - rewrite PyFacts.split_first_field, PyFacts.split_first_field; [reflexivity | |].
      + apply (PyFacts.all_chars_absent Py.is_digit); [reflexivity |].
        now apply PyFacts.format_0d_nonneg_digits.
      + rewrite PyFacts.contains_app, Hdash. destruct Hx as [-> | ->]; reflexivity.
    - rewrite !PyFacts.append_assoc.
      change (String "-" (f6 ++ String "-" rest) ++ String q "")
        with (String "-" ((f6 ++ String "-" rest) ++ String q "")).
      rewrite PyFacts.append_assoc. reflexivity. }
  assert (Hrm : Py.remove_char "'" (x ++ name) = name).
  { assert (Hq : Py.contains Py.squote name = false)
      by (apply (PyFacts.all_chars_absent Py.plain_char); [reflexivity | exact Hname]).
    destruct Hx as [-> | ->].
    - now apply PyFacts.remove_char_absent.
    - change (Py.remove_char "'" name = name). now apply PyFacts.remove_char_absent. }
  unfold parse_restart_file. rewrite truthy_py_ascii.
  destruct (Py.os_path_split _) as [file_path file_name]. cbn [snd] in Hfile. subst file_name.
  rewrite Hfields. cbn [Py.index nth_error].
  unfold bind, emit, lift, ret. fold f6.
  unfold f6 at 1. rewrite (PyFacts.int_of_str_format_0d 6 step Hstep).
  rewrite Hrm, !add_events_add. eexists. reflexivity.
Qed.

(** C9, as the code has it. For a [-r] path whose base name is
    [{casename}-{step:06d}-{rank:04d}.pkl] with a casename of printable
    ASCII characters other than the apostrophe, the backslash and ['-'],
    and a step that is not negative, the command line derives
    [restart_step = step] and [restart_name = casename], whatever the
    directory part. *)
Theorem restart_file_name_fields c dir name step rank w :
  opt_restart_file c = Some (dir ++ format cli_pattern name step rank) ->
  Py.all_chars Py.plain_char name = true ->
  Py.contains "-" name = false ->
  Py.contains "/" name = false ->
  dir = "" \/ (exists d, dir = d ++ "/") ->
  0 <= step ->
  exists st w',
    command_line c w = (Ret st, w') /\
    v_restart_step st = Some step /\
    v_restart_name st = Some name.
Proof.
  intros Hr Hname Hdash Hslash Hdir Hstep.
  unfold command_line. rewrite Hr. cbn [option_map].
  unfold bind at 1. rewrite parse_casename_run.
  destruct (opt_casename c) as [raw |];
    unfold bind at 1;
    match goal with
    | |- context [parse_restart_file _ ?w1] =>
        destruct (parse_restart_file_pattern dir name step rank w1
                    Hname Hdash Hslash Hdir Hstep) as [es ->]
    end;
    unfold bind at 1; rewrite parse_input_file_run;
    destruct (opt_input_file c); unfold ret;
    eexists _, _; split; reflexivity || (split; reflexivity).
Qed.


End CommandLineProperties.

(** ** Worked runs *)

(** C1 at a state that holds an infinity. *)
Lemma my_rhs_nonfinite_witness :
  my_rhs example_comm example_frame 0 [1; infinity]%float empty_world =
    (Raise (NameError "s0_sc"),
     {| fs := ∅;
        trace := [Info "Non-finite values detected in simulation, exiting..."] |}).
Proof.
  apply (my_rhs_nonfinite_raises_NameError example_comm example_frame
           0%float [1; infinity]%float empty_world).
  vm_compute. reflexivity.
Defined.

(** The same failure seen from [run_flame]: the run ends in [NameError]
    and its trace holds no [sim_checkpoint] call with step 999999999. *)
Lemma diverged_run_ends_in_NameError :
  fst diverged_run = Raise (NameError "s0_sc") /\
  List.filter (fun e => match e with
                   | SimCheckpoint c => sc_step c =? 999999999
                   | WriteSnapshot _ _ => true
                   | _ => false
                   end) (trace (snd diverged_run)) = [].
Proof. vm_compute. split; reflexivity. Qed.

(** C2 is not what the code does when [nrestart] is not positive. With
    [nrestart = 0], step 7 of a run restarted at step 5 is written although
    7 is no multiple of 0; with [nrestart = -5], step 10 is not written
    although it is a multiple of -5 and not the restart step. *)
Lemma restart_cadence_breaks_for_nonpositive_nrestart :
  (writes_restart (H0 := capped_mirgecom 0) example_comm (frame_with_nrestart 0)
     7 0 0 [1; 2]%float empty_world /\
   ~ (0 | 7) /\ 7 mod 0 <> 0) /\
  (~ writes_restart (H0 := capped_mirgecom 0) example_comm (frame_with_nrestart (-5))
       10 0 0 [1; 2]%float empty_world /\
   (-5 | 10) /\ 10 mod (-5) = 0 /\ 10 <> 5).
Proof.
  split.
  - split; [apply writes_restart_iff; reflexivity |].
    split; [intros [k Hk]; lia | discriminate].
  - split; [rewrite writes_restart_iff; discriminate |].
    split; [exists (-2); reflexivity |]. split; [reflexivity | discriminate].
Qed.

(** C2, amended, at step 10 of a run restarted at step 5 with
    [nrestart = 5]: the snapshot of step 10 is there after the call. *)
Lemma my_checkpoint_restart_cadence_witness :
  snapshot_written (H0 := capped_mirgecom 0) example_comm example_frame
    10 0 0 [1; 2]%float empty_world.
Proof.
  apply (my_checkpoint_restart_cadence (H0 := capped_mirgecom 0)
           example_comm example_frame 10 0%float 0%float [1; 2]%float empty_world).
  - intros s interval. reflexivity.
  - split; [discriminate |]. right. split; [reflexivity | reflexivity].
Defined.

(** C3 at a user file that differs from [run2_params.yaml]: the
    parameters come from [run2_params.yaml] (7, 9, 5e-8, 2.5e-7), not from
    the file that was supplied (1, 2, 1e-9, 1e-8); and when
    [run2_params.yaml] is missing the stage fails although the supplied
    file is there. *)
Theorem supplied_config_file_is_not_read :
  fst (read_run_parameters "my_params.yaml" config_world)
    = Ret {| nviz := 7; nrestart := 9; current_dt := 5.0e-8; t_final := 2.5e-7 |} /\
  fst (read_run_parameters "my_params.yaml" config_world_without_run2)
    = Raise (FileNotFoundError "run2_params.yaml").
Proof. vm_compute. split; reflexivity. Qed.

(** C4 at a snapshot of one part read by a world of one rank. *)
Lemma restart_asserts_witness :
  exists rs w',
    process_restart example_comm cli_pattern "flame1d" 5
      (example_world [1; 2]%float 0) = (Ret rs, w') /\
    In (MakeDiscretization 8) (new_events (example_world [1; 2]%float 0) w').
Proof.
  refine (proj2 (restart_asserts_same_partition_count example_comm cli_pattern
                   "flame1d" 5 (example_world [1; 2]%float 0)
                   (example_snapshot [1; 2]%float 0) _) _).
  - vm_compute. reflexivity.
  - reflexivity.
Defined.

(** C5 is not what the code does: [capped_run] stops at step 7 before the
    final time and ends in the abnormal-termination error, yet it wrote no
    restart snapshot. The files are those it started with, while the
    state of the final [my_checkpoint] call is no longer the one in the
    snapshot it was restarted from. *)
Lemma final_checkpoint_may_write_nothing :
  fst capped_run = Raise (ValueError "Simulation exited abnormally") /\
  List.filter is_snapshot_write (trace (snd capped_run)) = [] /\
  fs (snd capped_run) = fs (example_world [1; 2]%float 0) /\
  match List.last (trace (snd capped_run)) CreateContext with
  | SimCheckpoint c => sc_step c = 7 /\ sc_q c <> [1; 2]%float
  | _ => False
  end.
Proof.
  vm_compute. repeat split; discriminate.
Qed.

(** C5, amended, on the two-step stepper: the loop returns step 7 before
    the final time, and the stage ends in the error after the log line
    and the one [sim_checkpoint] call of the final [my_checkpoint]. *)
Lemma final_checkpoint_precedes_error_witness :
  exists w2,
    step_and_finish (H0 := capped_mirgecom 2) example_comm example_frame false empty_world
      = (Raise (ValueError "Simulation exited abnormally"), w2) /\
    new_events (snd capped_stage_result) w2 =
      [Info "Checkpointing final state ...";
       SimCheckpoint
         {| sc_q := [(5.0e-8 * - (5.0e-8 * - 1 + 1) + (5.0e-8 * - 1 + 1))%float;
                     (5.0e-8 * - (5.0e-8 * - 2 + 2) + (5.0e-8 * - 2 + 2))%float];
            sc_vizname := "flame1d"; sc_step := 7;
            sc_t := (0 + 5.0e-8 + 5.0e-8)%float;
            sc_dt := (0 + 5.0e-8 + 5.0e-8 - 0)%float; sc_nviz := 5 |}].
Proof.
  refine (final_checkpoint_precedes_error (H0 := capped_mirgecom 2)
            example_comm example_frame false empty_world
            7 (0 + 5.0e-8 + 5.0e-8)%float
            [(5.0e-8 * - (5.0e-8 * - 1 + 1) + (5.0e-8 * - 1 + 1))%float;
             (5.0e-8 * - (5.0e-8 * - 2 + 2) + (5.0e-8 * - 2 + 2))%float]
            (snd capped_stage_result) _ _).
  - vm_compute. reflexivity.
  - vm_compute. reflexivity.
Defined.

(** C7 is not what the code does: [zero_step_run] loads the snapshot,
    takes no integrator step (the snapshot is already at the final time),
    calls [my_checkpoint] once and exits, and no restart record is
    written: the trace holds no [pickle.dump] and the files are unchanged. *)
Lemma zero_step_checkpoint_writes_nothing :
  zero_step_run =
    (Exit,
     {| fs := fs (example_world [1; 2]%float 2.5e-7);
        trace :=
          [InitLogmgr false; CreateContext; PrintControl 5 5 5.0e-8 2.5e-7;
           SetupThermochemistry; OpenRead "flame1d-000005-0000.pkl";
           Info "Making discretization"; MakeDiscretization 8; MakeVisualizer;
           Info "Stepping."; AdvanceState 2.5e-7 2.5e-7 5;
           Info "Checkpointing final state ...";
           SimCheckpoint {| sc_q := [1; 2]%float; sc_vizname := "flame1d";
                            sc_step := 5; sc_t := 2.5e-7; sc_dt := 2.5e-7;
                            sc_nviz := 5 |}] |}) /\
  List.filter is_snapshot_write (trace (snd zero_step_run)) = [].
Proof. vm_compute. split; reflexivity. Qed.

(** C7, amended, on the same snapshot. *)
Lemma restart_then_checkpoint_witness :
  exists rs w',
    process_restart example_comm cli_pattern "flame1d" 5
      (example_world [1; 2]%float 2.5e-7) = (Ret rs, w') /\
    current_t rs = 2.5e-7%float /\
    current_step rs = 5 /\
    forall dt state w1,
      ~ writes_restart (H0 := capped_mirgecom 10) example_comm
          {| casename := "flame1d"; snapshot_pattern := cli_pattern;
             restart_step := 5; parameters := example_parameters; restart := rs |}
          (current_step rs) (current_t rs) dt state w1.
Proof.
  destruct (restart_then_checkpoint (H0 := capped_mirgecom 10) example_comm
              "flame1d" cli_pattern "flame1d" 5 example_parameters
              (example_world [1; 2]%float 2.5e-7)
              (example_snapshot [1; 2]%float 2.5e-7))
    as (rs & w' & Hrun & Ht & Hstep & Hnone & _).
  - vm_compute. reflexivity.
  - reflexivity.
  - exists rs, w'. auto.
Defined.

(** C8 on a command line with [-r] alone. *)
Lemma main_without_input_file_witness :
  exists es,
    main (H0 := capped_mirgecom 10) example_comm restart_only_cli
      (example_world [1; 2]%float 0)
    = (Raise (NameError "input_file"), add_events (example_world [1; 2]%float 0) es) /\
    forallb is_print es = true.
Proof.
  destruct (main_without_input_file_raises (H0 := capped_mirgecom 10) example_comm
              restart_only_cli (example_world [1; 2]%float 0) eq_refl)
    as (e & es & Hrun & Hprint & Hparsed & _).
  exists es. rewrite Hrun, Hparsed.
  - split; [reflexivity | exact Hprint].
  - eexists _, _. vm_compute. reflexivity.
Defined.

(** The same command line, run: three prints, then the exception. *)
Lemma main_without_input_file_run :
  main (H0 := capped_mirgecom 10) example_comm restart_only_cli empty_world =
    (Raise (NameError "input_file"),
     {| fs := ∅;
        trace := [Print "Default casename flame1d";
                  Print "Restarting from file 'flame1d-000005-0000.pkl'";
                  Print "step 5"; Print "name flame1d";
                  Print "No user input file, using default values";
                  Print ("Running flame_run.py" ++ String "010"%char "")] |}).
Proof. vm_compute. reflexivity. Qed.

(** C9 is not what the code does. A base name that follows the pattern
    with the casename [my-case] splits into the fields ['my], [case], ...,
    and [int("case")] raises. A base name that follows the pattern with
    the casename [it's] is quoted with double quotes by [ascii], and the
    restart name keeps the opening one. *)
Lemma restart_file_name_misparsed :
  (format cli_pattern "my-case" 5 0 = "my-case-000005-0000.pkl" /\
   command_line dashed_casename_cli empty_world =
     (Raise (ValueError "invalid literal for int() with base 10"),
      {| fs := ∅;
         trace := [Print "Custom casename 'my-case'";
                   Print "Restarting from file 'my-case-000005-0000.pkl'"] |})) /\
  (format cli_pattern "it's" 5 0 = "it's-000005-0000.pkl" /\
   exists st w',
     command_line apostrophe_restart_cli empty_world = (Ret st, w') /\
     v_restart_step st = Some 5 /\
     v_restart_name st = Some (String Py.dquote "its")).
Proof.
  split; [vm_compute; split; reflexivity |].
  split; [reflexivity |].
  eexists _, _. vm_compute. repeat split; reflexivity.
Qed.

(** C9, amended, on a path with directories, a blank and an apostrophe in
    the directory part. *)
Lemma restart_file_name_fields_witness :
  exists st w',
    command_line nested_path_cli empty_world = (Ret st, w') /\
    v_restart_step st = Some 5 /\
    v_restart_name st = Some "flame1d".
Proof.
  apply (restart_file_name_fields nested_path_cli "runs/day 2/it's/" "flame1d" 5 3 empty_world).
  - reflexivity.
  - reflexivity.
  - reflexivity.
  - reflexivity.
  - right. exists "runs/day 2/it's". reflexivity.
  - lia.
Defined.



(** * Further properties *)

(** ** Checkpoint files *)

Section CheckpointFiles.
Context `{Mirgecom}.
Variable comm : Comm.

(** A snapshot written by [my_checkpoint] restarts the run where it was:
    when the cadence test lets the write through, the restart stage run on
    the resulting files with the same pattern, the casename as restart
    name and the written step returns the time and step of the call, the
    state flattened and unflattened, and the mesh and element count of the
    frame; it changes no file. *)
Theorem checkpoint_then_restart fr step t dt state w :
  negb (step =? restart_step fr) && check_step step (nrestart (parameters fr)) = true ->
  exists w1 rs w2,
    my_checkpoint comm fr step t dt state w = (Ret tt, w1) /\
    process_restart comm (snapshot_pattern fr) (casename fr) step w1 = (Ret rs, w2) /\
    current_t rs = t /\
    current_step rs = step /\
    current_state rs = unflatten (flatten state) /\
    local_mesh rs = local_mesh (restart fr) /\
    global_nelements rs = global_nelements (restart fr) /\
    fs w2 = fs w1.
Proof.
  intros Hwrite. rewrite my_checkpoint_run, Hwrite. cbv zeta.
  eexists. eexists. eexists. split; [reflexivity |].
  erewrite process_restart_run by (cbn [fs]; apply lookup_insert_eq).
  cbn [r_num_parts]. rewrite Z.eqb_refl.
  split; [reflexivity |]. cbn. auto 10.
Qed.

End CheckpointFiles.

(** ** Snapshot file names *)

Section SnapshotNames.

Lemma append_inj_l (s t1 t2 : string) : s ++ t1 = s ++ t2 -> t1 = t2.
Proof.
  induction s as [| c s IH]; [exact (fun E => E) |].
  change (String c (s ++ t1) = String c (s ++ t2) -> t1 = t2).
  intros [= E]. auto.
Qed.

Lemma format_0d_inj w n1 n2 :
  0 <= n1 -> 0 <= n2 -> Py.format_0d w n1 = Py.format_0d w n2 -> n1 = n2.
Proof.
  intros H1 H2 Heq.
  pose proof (PyFacts.int_of_str_format_0d w n1 H1) as E.
  rewrite Heq, (PyFacts.int_of_str_format_0d w n2 H2) in E. congruence.
Qed.

(** The first field of a text that starts with a zero-padded number. *)
Lemma split_number_field sep w n r :
  Py.is_digit sep = false -> 0 <= n ->
  Py.split sep (Py.format_0d w n ++ String sep r) = Py.format_0d w n :: Py.split sep r.
Proof.
  intros Hsep Hn. apply PyFacts.split_first_field.
  apply (PyFacts.all_chars_absent Py.is_digit); [exact Hsep |].
  now apply PyFacts.format_0d_nonneg_digits.
Qed.

Lemma step_rank_suffix_inj step1 rank1 step2 rank2 :
  0 <= step1 -> 0 <= step2 -> 0 <= rank1 -> 0 <= rank2 ->
  Py.format_0d 6 step1 ++ String "-" (Py.format_0d 4 rank1 ++ ".pkl")
  = Py.format_0d 6 step2 ++ String "-" (Py.format_0d 4 rank2 ++ ".pkl") ->
  step1 = step2 /\ rank1 = rank2.
Proof.
  intros Hs1 Hs2 Hr1 Hr2 Heq.
  pose proof (f_equal (Py.split "-") Heq) as Hsplit.
  rewrite !split_number_field in Hsplit by (reflexivity || assumption).
  injection Hsplit as Hstep _.
  rewrite Hstep in Heq. apply append_inj_l in Heq. injection Heq as Hrest.
  apply format_0d_inj in Hstep; [| assumption | assumption].
  split; [exact Hstep |].
  pose proof (f_equal (Py.split ".") Hrest) as Hsplit.
  change (Py.format_0d 4 rank1 ++ ".pkl")
    with (Py.format_0d 4 rank1 ++ String "." "pkl") in Hsplit.
  change (Py.format_0d 4 rank2 ++ ".pkl")
    with (Py.format_0d 4 rank2 ++ String "." "pkl") in Hsplit.
  rewrite !split_number_field in Hsplit by (reflexivity || assumption).
  injection Hsplit as Hrank. now apply format_0d_inj in Hrank.
Qed.

(** Under either pattern of the source and for one casename, two
    different pairs of a step and a rank, none negative, give two
    different snapshot file names: ranks never write over each other, nor
    does a step over an earlier one. *)
Theorem snapshot_names_distinct pattern name step1 rank1 step2 rank2 :
  pattern = default_pattern \/ pattern = cli_pattern ->
  0 <= step1 -> 0 <= step2 -> 0 <= rank1 -> 0 <= rank2 ->
  step1 <> step2 \/ rank1 <> rank2 ->
  format pattern name step1 rank1 <> format pattern name step2 rank2.
Proof.
  intros Hpat Hs1 Hs2 Hr1 Hr2 Hne Heq.
  assert (Hsuffix :
            Py.format_0d 6 step1 ++ String "-" (Py.format_0d 4 rank1 ++ ".pkl")
            = Py.format_0d 6 step2 ++ String "-" (Py.format_0d 4 rank2 ++ ".pkl")).
  { destruct Hpat as [-> | ->].
    - exact (append_inj_l "flame1d-" _ _ Heq).
    - rewrite !format_cli_pattern in Heq.
      apply append_inj_l in Heq. now injection Heq. }
  destruct (step_rank_suffix_inj _ _ _ _ Hs1 Hs2 Hr1 Hr2 Hsuffix).
  destruct Hne; contradiction.
Qed.

End SnapshotNames.

(** ** Failures and endings of [run_flame] *)

Section RunEndings.
Context `{Mirgecom}.
Variable comm : Comm.

(** With the default parameters, a run whose snapshot file is not there
    fails with [FileNotFoundError] on the name built from the pattern, the
    restart name (the casename when [restart_name] is [None]), the restart
    step and this rank, after the thermochemistry set-up and before any
    discretization is made. *)
Theorem run_flame_missing_snapshot
    casename snapshot_pattern restart_step restart_name use_logmgr w :
  let name := match restart_name with None => casename | Some n => n end in
  let path := format snapshot_pattern name restart_step (Get_rank comm) in
  fs w !! path = None ->
  run_flame comm casename "" snapshot_pattern (Some restart_step) restart_name use_logmgr w =
    (Raise (FileNotFoundError path),
     add_events w
       ([InitLogmgr use_logmgr; CreateContext] ++
        (if Get_rank comm =? 0
         then [PrintControl 5 5 5.0e-8 2.5e-7] else []) ++
        [SetupThermochemistry])).
Proof.
  intros name path Hf. unfold run_flame. fold name.
  unfold bind at 1. unfold emit at 1.
  unfold bind at 1. unfold emit at 1.
  unfold bind at 1. rewrite read_run_parameters_default.
  unfold bind at 1. unfold when, emit, ret.
  assert (Hf' : forall es, fs (add_events w es) !! path = None) by (intros; exact Hf).
  destruct (Get_rank comm =? 0);
    cbn [default_parameters nviz nrestart current_dt t_final];
    unfold bind at 1; unfold bind at 1;
    rewrite !add_events_add;
    unfold process_restart; fold path;
    unfold bind at 1; unfold open at 1; rewrite Hf'; reflexivity.
Qed.

(** A configuration document that lacks one of the four keys is fatal:
    the stage raises and returns no parameters, the defaults are not a
    fallback for the missing key; when [nviz] is the missing one the
    error is [KeyError] on it. *)
Theorem missing_config_key_is_fatal user_input_file w f doc k :
  user_input_file <> "" ->
  fs w !! user_input_file = Some f ->
  fs w !! "run2_params.yaml" = Some (FYaml doc) ->
  In k ["nviz"; "nrestart"; "current_dt"; "t_final"] ->
  doc !! k = None ->
  exists e,
    fst (read_run_parameters user_input_file w) = Raise e /\
    (k = "nviz" -> e = KeyError "nviz").
Proof.
  intros Hne Hf Hdoc Hk Hmiss.
  rewrite (read_run_parameters_supplied _ _ _ _ Hne Hf Hdoc). cbv zeta.
  unfold getitem.
  destruct Hk as [<- | [<- | [<- | [<- | []]]]]; rewrite Hmiss.
  - eexists. split; [reflexivity | reflexivity].
  - destruct (doc !! "nviz") as [v |]; cbn; [destruct (py_int v); cbn |];
      eexists; (split; [reflexivity | discriminate]).
  - destruct (doc !! "nviz") as [v |]; cbn; [destruct (py_int v); cbn |];
      try (eexists; (split; [reflexivity | discriminate])).
    destruct (doc !! "nrestart") as [v' |]; cbn; [destruct (py_int v'); cbn |];
      eexists; (split; [reflexivity | discriminate]).
  - destruct (doc !! "nviz") as [v |]; cbn; [destruct (py_int v); cbn |];
      try (eexists; (split; [reflexivity | discriminate])).
    destruct (doc !! "nrestart") as [v' |]; cbn; [destruct (py_int v'); cbn |];
      try (eexists; (split; [reflexivity | discriminate])).
    destruct (doc !! "current_dt") as [v'' |]; cbn; [destruct (py_float v''); cbn |];
      eexists; (split; [reflexivity | discriminate]).
Qed.

(** The two log-and-call steps in front of the loop. *)
Lemma step_and_finish_unfold fr logmgr w :
  step_and_finish comm fr logmgr w =
    match
      advance_state (my_rhs comm fr) (my_checkpoint comm fr)
        (current_dt (parameters fr)) (current_state (restart fr))
        (t_final (parameters fr)) (current_t (restart fr)) (current_step (restart fr))
        (add_events w
           ((if Get_rank comm =? 0 then [Info "Stepping."] else []) ++
            [AdvanceState (t_final (parameters fr)) (current_t (restart fr))
               (current_step (restart fr))]))
    with
    | (Ret (step, t, state), w1) =>
        let w2 :=
          snd (my_checkpoint comm fr step t (t - 0)%float state
                 (add_events w1
                    (if Get_rank comm =? 0
                     then [Info "Checkpointing final state ..."] else []))) in
        if ended_early t (t_final (parameters fr))
        then (Raise (ValueError "Simulation exited abnormally"), w2)
        else (Exit, add_events w2 (if logmgr then [CloseLogmgr] else []))
    | (Raise e, w1) => (Raise e, w1)
    | (Exit, w1) => (Exit, w1)
    end.
Proof.
  unfold step_and_finish.
  assert (Hpre : forall (k : M unit),
            bind (when (Get_rank comm =? 0) (emit (Info "Stepping.")))
              (fun _ => bind (emit (AdvanceState (t_final (parameters fr))
                                      (current_t (restart fr)) (current_step (restart fr))))
                          (fun _ => k)) w
            = k (add_events w
                   ((if Get_rank comm =? 0 then [Info "Stepping."] else []) ++
                    [AdvanceState (t_final (parameters fr)) (current_t (restart fr))
                       (current_step (restart fr))]))).
  { intros k. unfold bind, when, emit, ret.
    destruct (Get_rank comm =? 0); cbn; rewrite ?add_events_add; reflexivity. }
  rewrite Hpre. unfold bind at 1.
  destruct (advance_state _ _ _ _ _ _ _ _) as [[[[step t] state] | e |] w1];
    [| reflexivity | reflexivity].
  assert (Hinfo : forall (k : M unit),
            bind (when (Get_rank comm =? 0) (emit (Info "Checkpointing final state ...")))
              (fun _ => k) w1
            = k (add_events w1 (if Get_rank comm =? 0
                                then [Info "Checkpointing final state ..."] else []))).
  { intros k. unfold bind, when, emit, ret.
    destruct (Get_rank comm =? 0); cbn; [reflexivity |].
    now rewrite add_events_nil. }
  rewrite Hinfo. unfold bind at 1. rewrite my_checkpoint_run. cbn [snd].
  destruct (ended_early t (t_final (parameters fr))); [reflexivity |].
  unfold bind, when, emit, exit, ret.
  destruct logmgr; [reflexivity |]. now rewrite add_events_nil.
Qed.

(** When the loop returns at a time that does not test as early, the run
    ends in [exit()]: after the log line (rank 0) come the final
    [my_checkpoint] call, with its snapshot write if the cadence test
    allows one, and [logmgr.close()] if there is a log manager. *)
Theorem run_completes_normally fr logmgr w step t state w1 :
  advance_state (my_rhs comm fr) (my_checkpoint comm fr)
    (current_dt (parameters fr)) (current_state (restart fr))
    (t_final (parameters fr)) (current_t (restart fr)) (current_step (restart fr))
    (add_events w
       ((if Get_rank comm =? 0 then [Info "Stepping."] else []) ++
        [AdvanceState (t_final (parameters fr)) (current_t (restart fr))
           (current_step (restart fr))]))
  = (Ret (step, t, state), w1) ->
  ended_early t (t_final (parameters fr)) = false ->
  exists w2,
    step_and_finish comm fr logmgr w = (Exit, w2) /\
    new_events w1 w2 =
      ((if Get_rank comm =? 0 then [Info "Checkpointing final state ..."] else []) ++
       (if negb (step =? restart_step fr) && check_step step (nrestart (parameters fr))
        then [WriteSnapshot
                (format (snapshot_pattern fr) (casename fr) step (Get_rank comm))
                {| r_local_mesh := local_mesh (restart fr);
                   r_state := flatten state; r_t := t; r_step := step;
                   r_global_nelements := global_nelements (restart fr);
                   r_num_parts := Get_size comm |}]
        else []) ++
       [SimCheckpoint {| sc_q := state; sc_vizname := casename fr; sc_step := step;
                         sc_t := t; sc_dt := (t - 0)%float;
                         sc_nviz := nviz (parameters fr) |}] ++
       (if logmgr then [CloseLogmgr] else []))%list.
Proof.
  intros Hadv Hlate. rewrite step_and_finish_unfold, Hadv, Hlate. cbv zeta.
  eexists. split; [reflexivity |].
  rewrite my_checkpoint_run. cbn [snd].
  destruct (negb (step =? restart_step fr) && check_step step (nrestart (parameters fr)));
    cbv zeta; unfold add_events; cbn [fs trace]; rewrite <- !app_assoc;
    apply new_events_app.
Qed.

(** A time that is not a number never tests as early. *)
Lemma ended_early_nan t_final : ended_early nan t_final = false.
Proof.
  unfold ended_early. rewrite ltb_spec, sub_spec.
  change (Prim2SF nan) with S754_nan. reflexivity.
Qed.

(** A loop that returns with a NaN time is not reported: [current_t -
    t_final < 0] is false for it, so the run ends in [exit()] like a
    completed one instead of raising the abnormal-termination error. *)
Theorem nan_time_is_not_reported fr logmgr w step state w1 :
  advance_state (my_rhs comm fr) (my_checkpoint comm fr)
    (current_dt (parameters fr)) (current_state (restart fr))
    (t_final (parameters fr)) (current_t (restart fr)) (current_step (restart fr))
    (add_events w
       ((if Get_rank comm =? 0 then [Info "Stepping."] else []) ++
        [AdvanceState (t_final (parameters fr)) (current_t (restart fr))
           (current_step (restart fr))]))
  = (Ret (step, nan, state), w1) ->
  exists w2, step_and_finish comm fr logmgr w = (Exit, w2).
Proof.
  intros Hadv. rewrite step_and_finish_unfold, Hadv, ended_early_nan.
  eexists. reflexivity.
Qed.

(** An exception out of the loop skips the final checkpoint: the run ends
    in that exception in the world the loop left, with no [my_checkpoint]
    call and no log line after it. *)
Theorem loop_failure_skips_final_checkpoint fr logmgr w e w1 :
  advance_state (my_rhs comm fr) (my_checkpoint comm fr)
    (current_dt (parameters fr)) (current_state (restart fr))
    (t_final (parameters fr)) (current_t (restart fr)) (current_step (restart fr))
    (add_events w
       ((if Get_rank comm =? 0 then [Info "Stepping."] else []) ++
        [AdvanceState (t_final (parameters fr)) (current_t (restart fr))
           (current_step (restart fr))]))
  = (Raise e, w1) ->
  step_and_finish comm fr logmgr w = (Raise e, w1).
Proof. intros Hadv. now rewrite step_and_finish_unfold, Hadv. Qed.

End RunEndings.

(** ** More on the command line *)

Section CommandLineRuns.
Context `{Mirgecom}.
Variable comm : Comm.

(** A text of plain characters survives the quoting by [ascii] and the
    removal of the apostrophes unchanged. *)
Lemma unquote_plain s :
  Py.all_chars Py.plain_char s = true -> Py.remove_char "'" (Py.py_ascii s) = s.
Proof.
  intros Hs. rewrite (PyFacts.py_ascii_plain _ Hs).
  assert (Hq : Py.contains Py.squote s = false)
    by (apply (PyFacts.all_chars_absent Py.plain_char); [reflexivity | exact Hs]).
  change (Py.remove_char "'" (s ++ String Py.squote "") = s).
  induction s as [| c s IH]; [reflexivity |].
  change ((if Ascii.eqb c "'" then Py.remove_char "'" (s ++ String Py.squote "")
           else String c (Py.remove_char "'" (s ++ String Py.squote ""))) = String c s).
  cbn in Hs, Hq. apply andb_true_iff in Hs as [_ Hs].
  apply orb_false_iff in Hq as [Hc Hq]. change (Ascii.eqb c "'") with (Ascii.eqb c Py.squote).
  rewrite Hc, (IH Hs Hq). reflexivity.
Qed.

(** A casename and an input file name made of printable ASCII characters
    other than the apostrophe and the backslash reach the module variables
    exactly as typed: the quotes [ascii] put around them are all that the
    apostrophe removal takes away. *)
Theorem plain_options_are_kept c name file w :
  opt_casename c = Some name ->
  opt_input_file c = Some file ->
  Py.all_chars Py.plain_char name = true ->
  Py.all_chars Py.plain_char file = true ->
  (forall st w',
     command_line c w = (Ret st, w') ->
     v_casename st = name /\ v_input_file st = Some file) /\
  (opt_restart_file c = None -> exists st w', command_line c w = (Ret st, w')).
Proof.
  intros Hc Hi Hname Hfile.
  destruct (command_line_shape c w) as (o & es & Hrun & _ & _ & Hret & Hnone).
  rewrite Hrun. split.
  - intros st w' [= -> _]. destruct (Hret st eq_refl) as [Hn Hf].
    rewrite Hc in Hn. rewrite Hi in Hf. cbn [option_map] in Hf.
    rewrite Hn, Hf, (unquote_plain _ Hname), (unquote_plain _ Hfile).
    split; reflexivity.
  - intros Hr. destruct (Hnone Hr) as [st ->]. eauto.
Qed.

(** Without [-r] and with [-i], the program prints and then ends at the
    first test of [run_flame]: one log line on rank 0 and [exit()], no
    file opened, whatever the other options are. *)
Theorem main_without_restart_file_exits c file w :
  opt_restart_file c = None ->
  opt_input_file c = Some file ->
  exists es,
    forallb is_print es = true /\
    main comm c w =
      (Exit,
       add_events w
         (es ++ if Get_rank comm =? 0
                then [Info "Driver only supports restart, not initialization"]
                else [])).
Proof.
  intros Hr Hi. unfold main. unfold bind at 1.
  assert (Hcl : exists st es,
             command_line c w = (Ret st, add_events w es) /\
             forallb is_print es = true /\
             v_restart_step st = None /\
             v_input_file st = Some (Py.remove_char "'" (Py.py_ascii file))).
  { unfold command_line. rewrite Hr, Hi. cbn [option_map].
    unfold bind at 1. rewrite parse_casename_run.
    destruct (opt_casename c);
      unfold bind at 1; unfold parse_restart_file at 1; cbn [truthy]; unfold ret at 1;
      unfold bind at 1; rewrite (parse_input_file_run (Some file));
      unfold ret; rewrite add_events_add;
      eexists _, _; repeat split; reflexivity. }
  destruct Hcl as (st & es & -> & Hes & Hstep & Hfile).
  unfold bind at 1. unfold emit at 1. rewrite add_events_add.
  unfold bind at 1. rewrite Hfile. unfold load_global, ret.
  rewrite Hstep. unfold run_flame, bind, when, emit, exit, ret.
  eexists. split; [| destruct (Get_rank comm =? 0); cbn;
                     rewrite ?add_events_add, ?app_nil_r; reflexivity].
  rewrite forallb_app, Hes. reflexivity.
Qed.

(** The command-line stage on a [-r] path that follows the pattern, with
    the events it adds. *)
Lemma restart_file_name_fields_run c dir name step rank w :
  opt_restart_file c = Some (dir ++ format cli_pattern name step rank) ->
  Py.all_chars Py.plain_char name = true ->
  Py.contains "-" name = false ->
  Py.contains "/" name = false ->
  dir = "" \/ (exists d, dir = d ++ "/") ->
  0 <= step ->
  exists st es,
    command_line c w = (Ret st, add_events w es) /\
    forallb is_print es = true /\
    v_restart_step st = Some step /\
    v_restart_name st = Some name.
Proof.
  intros Hr Hname Hdash Hslash Hdir Hstep.
  set (es1 := match opt_casename c with
              | Some raw => [Print ("Custom casename " ++ Py.py_ascii raw)]
              | None => [Print "Default casename flame1d"]
              end).
  assert (Hes1 : forallb is_print es1 = true)
    by (unfold es1; destruct (opt_casename c); reflexivity).
  destruct (parse_restart_file_pattern dir name step rank (add_events w es1)
              Hname Hdash Hslash Hdir Hstep) as [es2 Hparse].
  assert (Hes2 : forallb is_print es2 = true).
  { destruct (parse_restart_file_shape
                (Some (Py.py_ascii (dir ++ format cli_pattern name step rank)))
                (add_events w es1)) as (o & es2' & Hsh & Hp & _).
    rewrite Hparse in Hsh. injection Hsh as _ Htr.
    apply app_inv_head in Htr. now subst es2'. }
  unfold command_line. rewrite Hr. cbn [option_map].
  unfold bind at 1. rewrite parse_casename_run.
  unfold es1 in Hparse.
  destruct (opt_casename c) as [raw |];
    unfold bind at 1; rewrite Hparse;
    unfold bind at 1; rewrite parse_input_file_run;
    destruct (opt_input_file c); unfold ret; rewrite !add_events_add;
    eexists _, _;
    (split; [reflexivity |]);
    (split; [rewrite !forallb_app, Hes2; reflexivity |]); split; reflexivity.
Qed.

(** With [-i] given and a [-r] path whose base name follows the pattern
    (casename of plain characters without ['-'], step not negative), the
    program runs [run_flame] on the casename of [-c] (or [flame1d]), the
    unquoted input file name, the command-line pattern, the step and the
    name read off the file name, with logging on. The directory part and
    the rank field of the [-r] path are not handed on. *)
Theorem main_hands_over_parsed_restart c dir name step rank file w :
  opt_restart_file c = Some (dir ++ format cli_pattern name step rank) ->
  opt_input_file c = Some file ->
  Py.all_chars Py.plain_char name = true ->
  Py.contains "-" name = false ->
  Py.contains "/" name = false ->
  dir = "" \/ (exists d, dir = d ++ "/") ->
  0 <= step ->
  exists es,
    forallb is_print es = true /\
    main comm c w =
      run_flame comm
        (match opt_casename c with
         | Some raw => Py.remove_char "'" (Py.py_ascii raw)
         | None => "flame1d"
         end)
        (Py.remove_char "'" (Py.py_ascii file))
        cli_pattern (Some step) (Some name) true
        (add_events w es).
Proof.
  intros Hr Hi Hname Hdash Hslash Hdir Hstep.
  destruct (restart_file_name_fields_run c dir name step rank w
              Hr Hname Hdash Hslash Hdir Hstep) as (st & es & Hrun & Hes & Hs & Hn).
  destruct (command_line_shape c w) as (o & es' & Hrun' & _ & _ & Hret & _).
  rewrite Hrun in Hrun'. injection Hrun' as <- _.
  destruct (Hret st eq_refl) as [Hcase Hfile]. rewrite Hi in Hfile.
  cbn [option_map] in Hfile.
  unfold main. unfold bind at 1. rewrite Hrun.
  unfold bind at 1. unfold emit at 1. rewrite add_events_add.
  unfold bind at 1. rewrite Hfile. unfold load_global, ret.
  rewrite Hcase, Hs, Hn.
  eexists. split; [| reflexivity].
  rewrite forallb_app, Hes. reflexivity.
Qed.

End CommandLineRuns.

(** ** Restart paths that do not split *)

Section UnsplittablePaths.
Context `{Mirgecom}.
Variable comm : Comm.

Lemma repr_quote_cases s :
  Py.repr_quote s = Py.squote \/ Py.repr_quote s = Py.dquote.
Proof.
  unfold Py.repr_quote.
  destruct (Py.contains Py.squote s && negb (Py.contains Py.dquote s)); auto.
Qed.

(** Escaping brings in no ['-']. *)
Lemma escape_char_dash q c :
  q = Py.squote \/ q = Py.dquote ->
  Py.contains "-" (Py.escape_char q c) = Ascii.eqb c "-".
Proof.
  intros [-> | ->]; destruct c as [[] [] [] [] [] [] [] []]; reflexivity.
Qed.

Lemma escape_all_dash q s :
  q = Py.squote \/ q = Py.dquote ->
  Py.contains "-" (Py.escape_all q s) = Py.contains "-" s.
Proof.
  intros Hq. induction s as [| c s IH]; [reflexivity |].
  change (Py.escape_all q (String c s)) with (Py.escape_char q c ++ Py.escape_all q s).
  rewrite PyFacts.contains_app, (escape_char_dash q c Hq), IH. reflexivity.
Qed.

Lemma py_ascii_dash s : Py.contains "-" (Py.py_ascii s) = Py.contains "-" s.
Proof.
  unfold Py.py_ascii.
  pose proof (repr_quote_cases s) as Hq. set (q := Py.repr_quote s) in *.
  change (Py.contains "-" (String q "" ++ Py.escape_all q s ++ String q "")
          = Py.contains "-" s).
  rewrite !PyFacts.contains_app, (escape_all_dash q s Hq).
  destruct Hq as [-> | ->]; cbn; now rewrite orb_false_r.
Qed.

(** The base name holds no character the path lacks. *)
Lemma os_path_split_tail_absent c p :
  Py.contains c p = false -> Py.contains c (snd (Py.os_path_split p)) = false.
Proof.
  intros Hp. unfold Py.os_path_split.
  assert (Hcut : match Py.rcut p with
                 | Some (_, t) => Py.contains c t = false
                 | None => True
                 end).
  { induction p as [| d p IH]; [exact I |].
    cbn in Hp. apply orb_false_iff in Hp as [_ Hp]. specialize (IH Hp).
    cbn. destruct (Py.rcut p) as [[h t] |]; [exact IH |].
    destruct (Ascii.eqb d "/"); [exact Hp | exact I]. }
  destruct (Py.rcut p) as [[h t] |]; [exact Hcut | exact Hp].
Qed.

Lemma split_without_sep sep s : Py.contains sep s = false -> Py.split sep s = [s].
Proof.
  induction s as [| c s IH]; [reflexivity |].
  cbn. intros Hs. apply orb_false_iff in Hs as [Hc Hs].
  now rewrite Hc, (IH Hs).
Qed.

(** A [-r] path without any ['-'] stops the program with [IndexError]:
    the file name splits into one field, and field 1, the step, is not
    there. Nothing but prints has happened and [run_flame] is not
    reached. *)
Theorem restart_path_without_dash c path w :
  opt_restart_file c = Some path ->
  Py.contains "-" path = false ->
  exists es,
    forallb is_print es = true /\
    main comm c w = (Raise IndexError, add_events w es).
Proof.
  intros Hr Hdash.
  assert (Hfields : forall fp fn,
            Py.os_path_split (Py.py_ascii path) = (fp, fn) -> Py.split "-" fn = [fn]).
  { intros fp fn Hsplit. apply split_without_sep.
    change fn with (snd (fp, fn)). rewrite <- Hsplit.
    apply os_path_split_tail_absent. now rewrite py_ascii_dash. }
  unfold main. unfold bind at 1. unfold command_line. rewrite Hr. cbn [option_map].
  unfold bind at 1. rewrite parse_casename_run.
  destruct (opt_casename c) as [raw |];
    unfold bind at 1; unfold parse_restart_file at 1; rewrite truthy_py_ascii;
    destruct (Py.os_path_split (Py.py_ascii path)) as [fp fn] eqn:Hsplit;
    rewrite (Hfields fp fn eq_refl);
    unfold bind, emit, lift, raise; cbn [Py.index nth_error];
    rewrite add_events_add; eexists; (split; [| reflexivity]); reflexivity.
Qed.

End UnsplittablePaths.

(** ** Further worked runs *)

(** A write at step 10, then a restart from the file. *)
Lemma checkpoint_then_restart_witness :
  exists w1 rs w2,
    my_checkpoint (H0 := capped_mirgecom 0) example_comm example_frame
      10 1.0e-7 5.0e-8 [3; 4]%float empty_world = (Ret tt, w1) /\
    process_restart example_comm cli_pattern "flame1d" 10 w1 = (Ret rs, w2) /\
    current_t rs = 1.0e-7%float /\
    current_step rs = 10 /\
    current_state rs = [3; 4]%float.
Proof.
  destruct (checkpoint_then_restart (H0 := capped_mirgecom 0) example_comm
              example_frame 10 1.0e-7%float 5.0e-8%float [3; 4]%float empty_world eq_refl)
    as (w1 & rs & w2 & Hw & Hr & Ht & Hs & Hst & _).
  exists w1, rs, w2. auto.
Defined.

(** Ranks 0 and 1 at step 5. *)
Lemma snapshot_names_distinct_witness :
  format cli_pattern "flame1d" 5 0 <> format cli_pattern "flame1d" 5 1.
Proof.
  apply (snapshot_names_distinct cli_pattern "flame1d" 5 0 5 1);
    first [lia | right; reflexivity].
Defined.

(** A restart from step 5 with no file at all. *)
Lemma run_flame_missing_snapshot_witness :
  run_flame (H0 := capped_mirgecom 10) example_comm "flame1d" "" cli_pattern
    (Some 5) None false empty_world =
    (Raise (FileNotFoundError "flame1d-000005-0000.pkl"),
     {| fs := ∅;
        trace := [InitLogmgr false; CreateContext; PrintControl 5 5 5.0e-8 2.5e-7;
                  SetupThermochemistry] |}).
Proof.
  apply (run_flame_missing_snapshot (H0 := capped_mirgecom 10) example_comm
           "flame1d" cli_pattern 5 None false empty_world).
  vm_compute. reflexivity.
Defined.

(** A document without [t_final]. *)
Lemma missing_config_key_witness :
  exists e, fst (read_run_parameters "my_params.yaml" short_config_world) = Raise e.
Proof.
  destruct (missing_config_key_is_fatal "my_params.yaml" short_config_world FOther
              (<["nviz" := YInt 7]> (<["nrestart" := YInt 9]>
                 (<["current_dt" := YStr "5e-8"]> ∅))) "t_final")
    as (e & He & _).
  - discriminate.
  - vm_compute. reflexivity.
  - vm_compute. reflexivity.
  - cbn. auto.
  - vm_compute. reflexivity.
  - exists e. exact He.
Defined.

(** Five steps from time 0 reach the final time: the run exits. *)
Lemma run_completes_normally_witness :
  exists w2,
    step_and_finish (H0 := capped_mirgecom 10) example_comm example_frame true empty_world
    = (Exit, w2).
Proof.
  destruct (run_completes_normally (H0 := capped_mirgecom 10) example_comm
              example_frame true empty_world
              (fst (fst (returned (0, 0%float, []) (stage_result 10 example_frame))))
              (snd (fst (returned (0, 0%float, []) (stage_result 10 example_frame))))
              (snd (returned (0, 0%float, []) (stage_result 10 example_frame)))
              (snd (stage_result 10 example_frame)))
    as (w2 & Hrun & _).
  - vm_compute. reflexivity.
  - vm_compute. reflexivity.
  - exists w2. exact Hrun.
Defined.

(** A timestep that is not a number: one step, then the clock is NaN and
    the run exits. *)
Lemma nan_time_is_not_reported_witness :
  exists w2,
    step_and_finish (H0 := capped_mirgecom 10) example_comm nan_dt_frame false empty_world
    = (Exit, w2).
Proof.
  apply (nan_time_is_not_reported (H0 := capped_mirgecom 10) example_comm
           nan_dt_frame false empty_world 6
           (snd (returned (0, 0%float, []) (stage_result 10 nan_dt_frame)))
           (snd (stage_result 10 nan_dt_frame))).
  vm_compute. reflexivity.
Defined.

(** The [NameError] of [my_rhs] on an infinite state ends the run with no
    final checkpoint. *)
Lemma loop_failure_witness :
  step_and_finish (H0 := capped_mirgecom 10) example_comm diverged_frame false empty_world
  = (Raise (NameError "s0_sc"), snd (stage_result 10 diverged_frame)).
Proof.
  apply (loop_failure_skips_final_checkpoint (H0 := capped_mirgecom 10) example_comm
           diverged_frame false empty_world).
  vm_compute. reflexivity.
Defined.

(** [-c burner -i run2_params.yaml] *)
Lemma plain_options_are_kept_witness :
  exists st w',
    command_line input_only_cli empty_world = (Ret st, w') /\
    v_casename st = "burner" /\
    v_input_file st = Some "run2_params.yaml".
Proof.
  destruct (plain_options_are_kept input_only_cli "burner" "run2_params.yaml"
              empty_world eq_refl eq_refl eq_refl eq_refl) as [Hkept Hruns].
  destruct (Hruns eq_refl) as (st & w' & Hrun).
  exists st, w'. split; [exact Hrun | exact (Hkept st w' Hrun)].
Defined.

(** The same command line, run to its end. *)
Lemma main_without_restart_file_witness :
  exists es,
    main (H0 := capped_mirgecom 10) example_comm input_only_cli empty_world =
      (Exit,
       add_events empty_world
         (es ++ [Info "Driver only supports restart, not initialization"])).
Proof.
  destruct (main_without_restart_file_exits (H0 := capped_mirgecom 10) example_comm
              input_only_cli "run2_params.yaml" empty_world eq_refl eq_refl)
    as (es & _ & Hrun).
  exists es. exact Hrun.
Defined.

(** [-r runs/burner-000005-0003.pkl -i run2_params.yaml -c burner] *)
Lemma main_hands_over_witness :
  exists es,
    main (H0 := capped_mirgecom 10) example_comm full_cli empty_world =
      run_flame (H0 := capped_mirgecom 10) example_comm "burner" "run2_params.yaml"
        cli_pattern (Some 5) (Some "burner") true (add_events empty_world es).
Proof.
  destruct (main_hands_over_parsed_restart (H0 := capped_mirgecom 10) example_comm
              full_cli "runs/" "burner" 5 3 "run2_params.yaml" empty_world)
    as (es & _ & Hrun).
  - reflexivity.
  - reflexivity.
  - reflexivity.
  - reflexivity.
  - reflexivity.
  - right. exists "runs". reflexivity.
  - lia.
  - exists es. exact Hrun.
Defined.

(** [-r runs/restart.pkl] *)
Lemma restart_path_without_dash_witness :
  exists es,
    main (H0 := capped_mirgecom 10) example_comm undashed_cli empty_world
    = (Raise IndexError, add_events empty_world es).
Proof.
  destruct (restart_path_without_dash (H0 := capped_mirgecom 10) example_comm
              undashed_cli "runs/restart.pkl" empty_world eq_refl eq_refl)
    as (es & _ & Hrun).
  exists es. exact Hrun.
Defined.

(** ** The supplied configuration file *)

Section SuppliedFile.
Context `{Mirgecom}.

(** The file named by [user_input_file] has to exist: when it does not,
    the stage fails with [FileNotFoundError] on it before it looks at
    [run2_params.yaml], and nothing has happened yet. *)
Theorem missing_user_file_is_fatal user_input_file w :
  user_input_file <> "" ->
  fs w !! user_input_file = None ->
  read_run_parameters user_input_file w
    = (Raise (FileNotFoundError user_input_file), w).
Proof.
  intros Hne Hf. unfold read_run_parameters.
  destruct (String.eqb_spec user_input_file ""); [contradiction |].
  unfold bind at 1. unfold open at 1. now rewrite Hf.
Qed.

(** What that file holds does not matter: with everything else equal, two
    contents of the supplied file give the same parameters or the same
    error. *)
Theorem supplied_file_content_is_irrelevant user_input_file f1 f2 files events :
  user_input_file <> "" ->
  user_input_file <> "run2_params.yaml" ->
  fst (read_run_parameters user_input_file
         {| fs := <[user_input_file := f1]> files; trace := events |})
  = fst (read_run_parameters user_input_file
           {| fs := <[user_input_file := f2]> files; trace := events |}).
Proof.
  intros Hne Hrun.
  set (outcome_of_run2 :=
         match files !! "run2_params.yaml" with
         | None => Raise (FileNotFoundError "run2_params.yaml")
         | Some (FYaml doc) =>
             match
               result_bind (result_bind (getitem doc "nviz") py_int) (fun nviz =>
               result_bind (result_bind (getitem doc "nrestart") py_int) (fun nrestart =>
               result_bind (result_bind (getitem doc "current_dt") py_float) (fun current_dt =>
               result_bind (result_bind (getitem doc "t_final") py_float) (fun t_final =>
               Ok {| nviz := nviz; nrestart := nrestart;
                     current_dt := current_dt; t_final := t_final |}))))
             with
             | Ok p => Ret p
             | Fail e => Raise e
             end
         | Some FYamlOther => Raise TypeError
         | Some _ => Raise (LoadError "run2_params.yaml")
         end).
  assert (Hany : forall f,
            fst (read_run_parameters user_input_file
                   {| fs := <[user_input_file := f]> files; trace := events |})
            = outcome_of_run2).
  { intros f. unfold read_run_parameters.
    destruct (String.eqb_spec user_input_file ""); [contradiction |].
    unfold bind at 1. unfold open at 1. cbn [fs]. rewrite lookup_insert_eq.
    unfold bind at 1. unfold open at 1. cbn [fs add_events].
    rewrite lookup_insert_ne by exact Hrun.
    unfold outcome_of_run2.
    destruct (files !! "run2_params.yaml") as [[doc | | r | d |] |]; try reflexivity.
    unfold bind, yaml_load, subscript, lift, ret, raise.
    destruct (result_bind (getitem doc "nviz") py_int); cbn; [| reflexivity].
    destruct (result_bind (getitem doc "nrestart") py_int); cbn; [| reflexivity].
    destruct (result_bind (getitem doc "current_dt") py_float); cbn; [| reflexivity].
    destruct (result_bind (getitem doc "t_final") py_float); cbn; reflexivity. }
  now rewrite !Hany.
Qed.

End SuppliedFile.

(** A user file that is not there, next to a good [run2_params.yaml]. *)
Lemma missing_user_file_witness :
  read_run_parameters "other.yaml" config_world
  = (Raise (FileNotFoundError "other.yaml"), config_world).
Proof.
  apply (missing_user_file_is_fatal "other.yaml" config_world).
  - discriminate.
  - vm_compute. reflexivity.
Defined.

(** A YAML document or anything else under the supplied name. *)
Lemma supplied_file_content_witness :
  fst (read_run_parameters "my_params.yaml"
         {| fs := <["my_params.yaml" := FYaml (<["nviz" := YInt 1]> ∅)]> (fs config_world);
            trace := [] |})
  = fst (read_run_parameters "my_params.yaml"
           {| fs := <["my_params.yaml" := FOther]> (fs config_world); trace := [] |}).
Proof.
  apply (supplied_file_content_is_irrelevant "my_params.yaml"
           (FYaml (<["nviz" := YInt 1]> ∅)) FOther (fs config_world) []);
    discriminate.
Defined.

(** One rank reading a snapshot of four parts. *)
Lemma run_flame_size_mismatch_witness :
  fst (run_flame (H0 := capped_mirgecom 10) example_comm "flame1d" "" cli_pattern
         (Some 5) None false
         {| fs := {[ "flame1d-000005-0000.pkl" :=
                       FSnapshot {| r_local_mesh := 8 : @Mesh list_arrays;
                                    r_state := [1; 2]%float; r_t := 0; r_step := 5;
                                    r_global_nelements := 32; r_num_parts := 4 |} ]};
            trace := [] |})
  = Raise AssertionError.
Proof.
  rewrite (run_flame_size_mismatch (H0 := capped_mirgecom 10) example_comm
             "flame1d" cli_pattern 5 None false _
             {| r_local_mesh := 8 : @Mesh list_arrays;
                r_state := [1; 2]%float; r_t := 0; r_step := 5;
                r_global_nelements := 32; r_num_parts := 4 |}).
  - reflexivity.
  - vm_compute. reflexivity.
  - vm_compute. discriminate.
Defined.

(** ** Files that load but are not what the driver expects *)

Section UnexpectedFiles.
Context `{Mirgecom}.
Variable comm : Comm.

(** A [run2_params.yaml] that holds a YAML document other than a mapping
    loads without error; the stage then fails with [TypeError] at the
    first subscript, [input_data["nviz"]]. *)
Theorem config_not_a_mapping_is_TypeError user_input_file w f :
  user_input_file <> "" ->
  fs w !! user_input_file = Some f ->
  fs w !! "run2_params.yaml" = Some FYamlOther ->
  read_run_parameters user_input_file w =
    (Raise TypeError,
     add_events w [OpenRead user_input_file; OpenRead "run2_params.yaml"]).
Proof.
  intros Hne Hf Hrun. unfold read_run_parameters.
  destruct (String.eqb_spec user_input_file ""); [contradiction |].
  unfold bind at 1. unfold open at 1. rewrite Hf.
  unfold bind at 1. unfold open at 1. cbn [fs add_events]. rewrite Hrun.
  rewrite add_events_add. reflexivity.
Qed.

(** A pickled mapping that lacks a key fails where the key is read. With
    the mesh and the element count present: without [num_parts] the
    restart stage raises [KeyError] on it instead of reaching the
    assertion, before any discretization; with the right [num_parts] but
    without [t], it raises [KeyError] on [t] only after the discretization
    has been made. *)
Theorem restart_mapping_missing_key
    snapshot_pattern restart_name restart_step w d mesh nelements :
  let path := format snapshot_pattern restart_name restart_step (Get_rank comm) in
  fs w !! path = Some (FPickle d) ->
  p_local_mesh d = Some mesh ->
  p_global_nelements d = Some nelements ->
  (p_num_parts d = None ->
   process_restart comm snapshot_pattern restart_name restart_step w
     = (Raise (KeyError "num_parts"), add_events w [OpenRead path])) /\
  (p_num_parts d = Some (Get_size comm) ->
   p_t d = None ->
   process_restart comm snapshot_pattern restart_name restart_step w
     = (Raise (KeyError "t"),
        add_events w
          (OpenRead path ::
           (if Get_rank comm =? 0 then [Info "Making discretization"] else []) ++
           [MakeDiscretization mesh]))).
Proof.
  intros path Hf Hmesh Hn.
  assert (Hstart : forall k : pickled_mapping -> M restart_state,
            bind (open path) (fun f => bind (pickle_load path f) k) w
            = k d (add_events w [OpenRead path])).
  { intros k. unfold bind at 1. unfold open at 1. rewrite Hf.
    unfold bind at 1. reflexivity. }
  split.
  - intros Hparts. unfold process_restart. fold path. rewrite Hstart.
    rewrite Hmesh, Hn, Hparts. reflexivity.
  - intros Hparts Ht. unfold process_restart. fold path. rewrite Hstart.
    rewrite Hmesh, Hn, Hparts, Ht.
    unfold bind, lift, restart_key, ret, raise, when, emit.
    rewrite Z.eqb_refl.
    destruct (Get_rank comm =? 0); cbn; rewrite !add_events_add; reflexivity.
Qed.

End UnexpectedFiles.

(** A list in [run2_params.yaml]. *)
Lemma config_not_a_mapping_witness :
  fst (read_run_parameters "my_params.yaml" list_config_world) = Raise TypeError.
Proof.
  rewrite (config_not_a_mapping_is_TypeError "my_params.yaml" list_config_world FOther).
  - reflexivity.
  - discriminate.
  - vm_compute. reflexivity.
  - vm_compute. reflexivity.
Defined.

(** A snapshot without [t], read by the one rank it was written for. *)
Lemma restart_mapping_missing_key_witness :
  process_restart example_comm cli_pattern "flame1d" 5 timeless_world =
    (Raise (KeyError "t"),
     {| fs := fs timeless_world;
        trace := [OpenRead "flame1d-000005-0000.pkl"; Info "Making discretization";
                  MakeDiscretization 8] |}).
Proof.
  refine (proj2 (restart_mapping_missing_key example_comm cli_pattern "flame1d" 5
                   timeless_world timeless_mapping 8 8 _ _ _) _ _).
  - vm_compute. reflexivity.
  - reflexivity.
  - reflexivity.
  - reflexivity.
  - reflexivity.
Defined.
